(** * The Oracle bridge server: a shallow embedding and its properties

    Source files embedded here:
    - [legacy_agents/simple-bot/oracle_mcp_server.py]: the stdio server
      ([read_shared_state], [handle_tool_call], [send_response],
      [send_error], [main]);
    - [agents/simple-bot/oracle_telegram.py]: the collaborator's
      [_log_conversation] and [check_pending_messages].

    Modelling conventions.
    - A Python [str] is a list of Unicode code points ([list N]).  The input
      stream [sys.stdin] is a text stream in POSIX mode (no newline
      translation): [readline] and [read n] count characters, not bytes.
      [utf8_len] gives the number of bytes a text occupies on the wire.
    - A JSON document is a value of type [json]; a Python [dict] is an
      association list, in insertion order.
    - A file is [Absent], [Corrupt] (present, but reading or decoding it
      fails) or [Doc v] (present and decoding to [v]).
    - Exceptions are values of type [exn]; a computation that may raise
      returns a [result].
    - Python floats are IEEE binary64 numbers ([PrimFloat.float]). *)

From Stdlib Require Import ZArith NArith List Bool Ascii String Floats Lia.
Import ListNotations.

Set Implicit Arguments.
Set Warnings "-register-all".

(** ** Text *)

Abbreviation str := (list N).

(** [u "abc"] is the text whose characters are the given ASCII characters. *)
Definition u (s : string) : str := map N_of_ascii (list_ascii_of_string s).
Arguments u s%_string.

Module Py.

Open Scope N_scope.

Definition LF : N := 10.
Definition CR : N := 13.

Fixpoint str_eqb (a b : str) : bool :=
  match a, b with
  | [], [] => true
  | x :: a', y :: b' => (x =? y) && str_eqb a' b'
  | _, _ => false
  end.

(** [str.isspace] on one character: the characters [str.strip] removes. *)
Definition isspace (c : N) : bool :=
  ((9 <=? c) && (c <=? 13)) || ((28 <=? c) && (c <=? 32))
  || (c =? 133) || (c =? 160) || (c =? 5760)
  || ((8192 <=? c) && (c <=? 8202))
  || (c =? 8232) || (c =? 8233) || (c =? 8239) || (c =? 8287) || (c =? 12288).

Fixpoint lstrip (s : str) : str :=
  match s with
  | c :: s' => if isspace c then lstrip s' else s
  | [] => []
  end.

Definition rstrip (s : str) : str := rev (lstrip (rev s)).

Definition strip (s : str) : str := rstrip (lstrip s).

(** [str.lower], on the ASCII letters.  No character outside ASCII lowers to
    one of the characters of ["content-length:"], so the prefix test of the
    header parser is decided exactly. *)
Definition lower_char (c : N) : N :=
  if (65 <=? c) && (c <=? 90) then c + 32 else c.

Definition lower (s : str) : str := map lower_char s.

Fixpoint startswith (s p : str) {struct p} : bool :=
  match p, s with
  | [], _ => true
  | y :: p', x :: s' => (x =? y) && startswith s' p'
  | _ :: _, [] => false
  end.

Definition endswith (s p : str) : bool := startswith (rev s) (rev p).

(** [s.split(sep)] for a separator of one character. *)
Fixpoint split (sep : N) (s : str) : list str :=
  match s with
  | [] => [[]]
  | c :: s' =>
      if c =? sep then [] :: split sep s'
      else match split sep s' with
           | h :: t => (c :: h) :: t
           | [] => [[c]]
           end
  end.

(** [sep.join(parts)] *)
Fixpoint join (sep : str) (parts : list str) : str :=
  match parts with
  | [] => []
  | [p] => p
  | p :: ps => p ++ sep ++ join sep ps
  end.

Definition is_digit (c : N) : bool := (48 <=? c) && (c <=? 57).

(** [str(n)] for a natural number: its decimal digits. *)
Fixpoint dec_digits (fuel : nat) (n : N) (acc : str) : str :=
  match fuel with
  | O => acc
  | S f =>
      let acc' := (48 + n mod 10) :: acc in
      if n <? 10 then acc' else dec_digits f (n / 10) acc'
  end.

Definition str_of_N (n : N) : str := dec_digits (S (N.to_nat (N.log2 n))) n [].

Definition str_of_Z (z : Z) : str :=
  match z with
  | Zneg p => 45 :: str_of_N (Npos p)
  | _ => str_of_N (Z.to_N z)
  end.

(** The digits of an [int] literal: decimal digits, where a single underscore
    may stand between two digits. *)
Fixpoint int_digits (acc : N) (s : str) : option N :=
  match s with
  | [] => Some acc
  | c :: s' =>
      if is_digit c then int_digits (10 * acc + (c - 48)) s'
      else if c =? 95 then
        match s' with
        | d :: _ => if is_digit d then int_digits acc s' else None
        | [] => None
        end
      else None
  end.

Definition int_body (s : str) : option N :=
  match s with
  | c :: _ => if is_digit c then int_digits 0 s else None
  | [] => None
  end.

(** [int(s)] on a text; [None] stands for [ValueError].  Decimal digits
    outside ASCII, which [int] also accepts, are not modelled. *)
Definition int_of_str (s : str) : option Z :=
  match strip s with
  | c :: b =>
      if c =? 43 then option_map Z.of_N (int_body b)
      else if c =? 45 then option_map (fun n => (- Z.of_N n)%Z) (int_body b)
      else option_map Z.of_N (int_body (c :: b))
  | [] => None
  end.

(** A non-empty run of decimal digits. *)
Definition digits (d : str) : Prop := d <> [] /\ Forall (fun c => is_digit c = true) d.

(** Number of bytes of the UTF-8 encoding. *)
Definition utf8_char_len (c : N) : nat :=
  if c <? 128 then 1 else if c <? 2048 then 2 else if c <? 65536 then 3 else 4.

Definition utf8_len (s : str) : nat :=
  fold_right (fun c n => (utf8_char_len c + n)%nat) 0%nat s.

Definition is_ascii (s : str) : bool := forallb (fun c => c <? 128) s.

(** [l[i:]], the slice from index [i] to the end: a negative [i] counts from
    the end, and indexes beyond either end are clipped. *)
Definition slice_from {A} (i : Z) (l : list A) : list A :=
  let len := Z.of_nat (List.length l) in
  let start := if (i <? 0)%Z then Z.max 0 (len + i) else Z.min i len in
  skipn (Z.to_nat start) l.

(** [sys.stdin.readline()]: the characters up to and including the next line
    feed, or what is left of the input; the empty text at the end of input. *)
Fixpoint readline (inp : str) : str * str :=
  match inp with
  | [] => ([], [])
  | c :: r =>
      if c =? LF then ([c], r)
      else let (l, r') := readline r in (c :: l, r')
  end.

(** [sys.stdin.read(n)]: [n] characters, fewer at the end of input; all the
    rest when [n] is negative. *)
Definition read (n : Z) (inp : str) : str * str :=
  if (n <? 0)%Z then (inp, [])
  else (firstn (Z.to_nat n) inp, skipn (Z.to_nat n) inp).

End Py.

(** ** JSON values, exceptions, files *)

Inductive json : Type :=
| JNull
| JBool (b : bool)
| JInt (z : Z)
| JFloat (f : float)
| JStr (s : str)
| JArr (items : list json)
| JObj (fields : list (str * json)).

Inductive exn : Type :=
| JSONDecodeError
| AttributeError
| TypeError
| KeyError (key : str)
| ValueError
| OverflowError
| OSError.

Inductive result (A : Type) : Type :=
| Ok (a : A)
| Raise (e : exn).
Arguments Ok {A} a.
Arguments Raise {A} e.

Definition bind {A B} (r : result A) (k : A -> result B) : result B :=
  match r with
  | Ok a => k a
  | Raise e => Raise e
  end.

Notation "x <- r ;; k" := (bind r (fun x => k))
  (at level 61, r at next level, right associativity).

(** The state of one file on disk. *)
Inductive file : Type :=
| Absent
| Corrupt
| Doc (v : json).

Record files : Type := mkFiles {
  SHARED_STATE_FILE : file;
  PENDING_MESSAGES_FILE : file
}.

(** Lookup in an association list: the value of the first field named [k]. *)
Fixpoint assoc (k : str) (d : list (str * json)) : option json :=
  match d with
  | [] => None
  | (k', v) :: d' => if Py.str_eqb k' k then Some v else assoc k d'
  end.

(** [d[k] = v] on a dict: the field keeps its place, a new one goes last. *)
Fixpoint dict_set (k : str) (v : json) (d : list (str * json)) : list (str * json) :=
  match d with
  | [] => [(k, v)]
  | (k', v') :: d' =>
      if Py.str_eqb k' k then (k, v) :: d' else (k', v') :: dict_set k v d'
  end.

(** [x.get(k, default)]: only a dict has the method. *)
Definition py_get (x : json) (k : str) (default : json) : result json :=
  match x with
  | JObj d => Ok (match assoc k d with Some v => v | None => default end)
  | _ => Raise AttributeError
  end.

(** [x[k]] for a text key [k]: [KeyError] on a dict without the key. *)
Definition py_item (x : json) (k : str) : result json :=
  match x with
  | JObj d => match assoc k d with Some v => Ok v | None => Raise (KeyError k) end
  | _ => Raise TypeError
  end.

(** Truth value of an object, as [if x] and [not x] take it. *)
Definition truthy (x : json) : bool :=
  match x with
  | JNull => false
  | JBool b => b
  | JInt z => negb (z =? 0)%Z
  | JFloat f => negb (PrimFloat.eqb f 0%float)
  | JStr s => match s with [] => false | _ => true end
  | JArr l => match l with [] => false | _ => true end
  | JObj d => match d with [] => false | _ => true end
  end.

(** [x == s] for a text [s]. *)
Definition eq_str (x : json) (s : str) : bool :=
  match x with
  | JStr t => Py.str_eqb t s
  | _ => false
  end.

(** ** Floats *)

(** [float(z)] as the subtraction [time.time() - z] performs it: the nearest
    double, [OverflowError] when there is none. *)
Definition float_of_Z (z : Z) : result float :=
  let f := SF2Prim (binary_normalize 53 1024 z 0 false) in
  if PrimFloat.is_infinity f then Raise OverflowError else Ok f.

Definition float_inf : float := PrimFloat.infinity.
Definition float_60 : float := 60%float.

(** [f"{x:.0f}"]: the nearest integer, ties to even, in decimal. *)
Definition format_0f (x : float) : str :=
  match Prim2SF x with
  | S754_nan => u "nan"
  | S754_infinity s => if s then u "-inf" else u "inf"
  | S754_zero s => if s then u "-0" else u "0"
  | S754_finite s m e =>
      let v := if (0 <=? e)%Z then (Zpos m * 2 ^ e)%Z
               else let d := (2 ^ (- e))%Z in
                    let q := (Zpos m / d)%Z in
                    let r := (Zpos m mod d)%Z in
                    match (2 * r ?= d)%Z with
                    | Lt => q
                    | Gt => (q + 1)%Z
                    | Eq => if Z.even q then q else (q + 1)%Z
                    end in
      (if s then u "-" else []) ++ Py.str_of_Z v
  end.

(** ** The library functions the program calls

    [json_loads] is [json.loads] on a text ([None] for [JSONDecodeError]) and
    [json_dumps] is [json.dumps] with its default arguments.  [py_repr] is
    [repr] on floats, lists and dicts.  [local_hms x] is
    [time.strftime("%H:%M:%S", time.localtime(x))] on a number [x], [None]
    when [time.localtime] rejects the number. *)
Record PyLib : Type := mkPyLib {
  json_loads : str -> option json;
  json_dumps : json -> str;
  py_repr : json -> str;
  local_hms : json -> option str
}.

(** ** The server: [oracle_mcp_server.py] *)

Definition CRLF : str := [13; 10]%N.

(** [u'...'] reads a single quote as a double quote, for JSON texts. *)
Definition uq (s : string) : str :=
  map (fun c => if (c =? 39)%N then 34%N else c) (u s).
Arguments uq s%_string.

(** The table [TOOLS], lines 96-133; character 8212 is the dash of the
    descriptions. *)
Definition TOOLS : json :=
  JArr [
    JObj [(u "name", JStr (u "oracle_get_conversations"));
          (u "description",
           JStr (u "Read recent conversations between the user and the Oracle Telegram bot. Use this to see what the user has been asking the Oracle about "
                 ++ [8212%N]
                 ++ u " useful for understanding bugs, issues, or requests they've mentioned."));
          (u "inputSchema",
           JObj [(u "type", JStr (u "object"));
                 (u "properties",
                  JObj [(u "limit",
                         JObj [(u "type", JStr (u "integer"));
                               (u "description",
                                JStr (u "Number of recent conversations to return (default 10)"));
                               (u "default", JInt 10)])])])];
    JObj [(u "name", JStr (u "oracle_get_status"));
          (u "description",
           JStr (u "Check the Oracle Telegram bot's current status "
                 ++ [8212%N]
                 ++ u " whether it's running, connected to The Grid, its position, and autonomous mode state."));
          (u "inputSchema",
           JObj [(u "type", JStr (u "object")); (u "properties", JObj [])])];
    JObj [(u "name", JStr (u "oracle_send_message"));
          (u "description",
           JStr (u "Queue a message to be sent through the Oracle Telegram bot to the user. Use this to relay information, answers, or status updates back through Telegram."));
          (u "inputSchema",
           JObj [(u "type", JStr (u "object"));
                 (u "properties",
                  JObj [(u "message",
                         JObj [(u "type", JStr (u "string"));
                               (u "description",
                                JStr (u "The message to send through the Oracle to Telegram"))])]);
                 (u "required", JArr [JStr (u "message")])])]
  ].

Section Server.

Variable L : PyLib.

(** [str(x)], as an f-string renders a value. *)
Definition py_str (x : json) : str :=
  match x with
  | JStr s => s
  | JNull => u "None"
  | JBool true => u "True"
  | JBool false => u "False"
  | JInt z => Py.str_of_Z z
  | _ => py_repr L x
  end.

(** [read_shared_state], lines 21-28. *)
Definition default_state : json :=
  JObj [(u "conversations", JArr []); (u "status", JObj [])].

Definition read_shared_state (fs : files) : json :=
  match SHARED_STATE_FILE fs with
  | Doc v => v
  | _ => default_state
  end.

(** [-limit], the start index of the slice [convos[-limit:]]. *)
Definition negated_index (limit : json) : result Z :=
  match limit with
  | JInt z => Ok (- z)%Z
  | JBool b => Ok (if b then (-1)%Z else 0%Z)
  | _ => Raise TypeError
  end.

(** [time.strftime("%H:%M:%S", time.localtime(t))]; [time.localtime(None)] is
    the current time. *)
Definition hms (now : float) (t : json) : result str :=
  let lib x := match local_hms L x with
               | Some s => Ok s
               | None => Raise OverflowError
               end in
  match t with
  | JNull => lib (JFloat now)
  | JBool _ | JInt _ | JFloat _ => lib t
  | _ => Raise TypeError
  end.

(** The three lines appended for one conversation, lines 45-48. *)
Definition format_entry (now : float) (c : json) : result (list str) :=
  t <- py_get c (u "timestamp") (JInt 0) ;;
  ts <- hms now t ;;
  user <- py_item c (u "user") ;;
  oracle <- py_item c (u "oracle") ;;
  Ok [ u "[" ++ ts ++ u "] User: " ++ py_str user;
       u "[" ++ ts ++ u "] Oracle: " ++ py_str oracle;
       [] ].

Fixpoint format_entries (now : float) (cs : list json) : result (list str) :=
  match cs with
  | [] => Ok []
  | c :: cs' =>
      ls <- format_entry now c ;;
      rest <- format_entries now cs' ;;
      Ok (ls ++ rest)
  end.

Definition NO_CONVERSATIONS : str :=
  u "No conversations yet. The Oracle bot may not be running.".

Definition NOT_RUNNING : str :=
  u "Oracle bot is not running or has not reported status yet.".

Definition NO_MESSAGE : str := u "Error: no message provided.".

(** Branch [oracle_get_conversations], lines 34-49. *)
Definition get_conversations (arguments : json) (now : float) (fs : files)
  : result str :=
  convos <- py_get (read_shared_state fs) (u "conversations") (JArr []) ;;
  limit <- py_get arguments (u "limit") (JInt 10) ;;
  start <- negated_index limit ;;
  match convos with
  | JArr cs =>
      match Py.slice_from start cs with
      | [] => Ok NO_CONVERSATIONS
      | recent =>
          lines <- format_entries now recent ;;
          Ok (Py.join [Py.LF] lines)
      end
  | JStr s =>
      (* a text is sliced too; its characters have no [get] *)
      match Py.slice_from start s with
      | [] => Ok NO_CONVERSATIONS
      | _ => Raise AttributeError
      end
  | _ => Raise TypeError
  end.

(** [time.time() - last_active if last_active else float("inf")], line 58. *)
Definition age (now : float) (last_active : json) : result float :=
  if truthy last_active then
    match last_active with
    | JFloat f => Ok (PrimFloat.sub now f)
    | JInt z => f <- float_of_Z z ;; Ok (PrimFloat.sub now f)
    | JBool _ => Ok (PrimFloat.sub now 1%float)
    | _ => Raise TypeError
    end
  else Ok float_inf.

(** Line 59. *)
Definition alive_text (ago : float) : str :=
  if PrimFloat.ltb ago float_60 then u "yes"
  else u "last seen " ++ format_0f ago ++ u "s ago".

(** Branch [oracle_get_status], lines 51-67. *)
Definition get_status (now : float) (fs : files) : result str :=
  status <- py_get (read_shared_state fs) (u "status") (JObj []) ;;
  if negb (truthy status) then Ok NOT_RUNNING
  else
    last_active <- py_get status (u "last_active") (JInt 0) ;;
    ago <- age now last_active ;;
    let alive := alive_text ago in
    connected <- py_get status (u "connected") (JBool false) ;;
    agent_id <- py_get status (u "agent_id") (JStr (u "N/A")) ;;
    position <- py_get status (u "position") (JStr (u "N/A")) ;;
    autonomous <- py_get status (u "autonomous") (JBool false) ;;
    Ok (u "Connected to The Grid: " ++ py_str connected ++ [Py.LF]
        ++ u "Agent ID: " ++ py_str agent_id ++ [Py.LF]
        ++ u "Position: " ++ py_str position ++ [Py.LF]
        ++ u "Autonomous mode: " ++ py_str autonomous ++ [Py.LF]
        ++ u "Alive: " ++ alive).

(** The entry queued by [oracle_send_message], lines 82-86. *)
Definition pending_entry (message : json) (now : float) : json :=
  JObj [(u "message", message);
        (u "from", JStr (u "claude_code"));
        (u "timestamp", JFloat now)].

(** Branch [oracle_send_message], lines 69-89. *)
Definition send_message (arguments : json) (now : float) (fs : files)
  : result str * files :=
  match py_get arguments (u "message") (JStr []) with
  | Raise e => (Raise e, fs)
  | Ok message =>
      if negb (truthy message) then (Ok NO_MESSAGE, fs)
      else
        let pending := match PENDING_MESSAGES_FILE fs with
                       | Doc v => v
                       | _ => JArr []
                       end in
        match pending with
        | JArr q =>
            (Ok (u "Message queued for Oracle: " ++ py_str message),
             mkFiles (SHARED_STATE_FILE fs)
                     (Doc (JArr (q ++ [pending_entry message now]))))
        | _ => (Raise AttributeError, fs)
        end
  end.

(** [handle_tool_call], lines 31-91. *)
Definition handle_tool_call (name arguments : json) (now : float) (fs : files)
  : result str * files :=
  if eq_str name (u "oracle_get_conversations") then
    (get_conversations arguments now fs, fs)
  else if eq_str name (u "oracle_get_status") then
    (get_status now fs, fs)
  else if eq_str name (u "oracle_send_message") then
    send_message arguments now fs
  else (Ok (u "Unknown tool: " ++ py_str name), fs).

(** Successive calls of [oracle_send_message], each with its message and
    the reading of the clock at the call. *)
Definition send_messages (msgs : list (str * float)) (fs : files) : files :=
  fold_left (fun fs mt =>
               snd (handle_tool_call (JStr (u "oracle_send_message"))
                      (JObj [(u "message", JStr (fst mt))]) (snd mt) fs))
            msgs fs.

(** The queue that [oracle_send_message] finds in the file, lines 75-80. *)
Definition queue_is (f : file) (q : list json) : Prop :=
  (f = Absent /\ q = []) \/ (f = Corrupt /\ q = []) \/ f = Doc (JArr q).

(** *** The stdio protocol *)

Record world : Type := mkWorld {
  stdin : str;
  stdout : str;
  stderr : list exn;        (* one entry per line written by line 217 *)
  disk : files;
  clock : nat -> float;     (* successive readings of [time.time()] *)
  tick : nat
}.

Definition with_stdin (w : world) (inp : str) : world :=
  mkWorld inp (stdout w) (stderr w) (disk w) (clock w) (tick w).

Definition write_stdout (w : world) (out : str) : world :=
  mkWorld (stdin w) (stdout w ++ out) (stderr w) (disk w) (clock w) (tick w).

Definition write_stderr (w : world) (e : exn) : world :=
  mkWorld (stdin w) (stdout w) (stderr w ++ [e]) (disk w) (clock w) (tick w).

Definition after_call (w : world) (fs : files) : world :=
  mkWorld (stdin w) (stdout w) (stderr w) fs (clock w) (S (tick w)).

(** What [send_response] and [send_error] write for a serialized message. *)
Definition content_length_header (n : N) : str :=
  u "Content-Length: " ++ Py.str_of_N n ++ CRLF ++ CRLF.

Definition frame (out : str) : str :=
  content_length_header (N.of_nat (List.length out)) ++ out.

(** A header block with the text [v] as declared length. *)
Definition header_with (v : str) : str := u "Content-Length: " ++ v ++ CRLF ++ CRLF.

(** A text of one line that neither starts nor ends with a blank and holds no
    colon. *)
Definition plain_value (v : str) : Prop :=
  (exists c t, v = c :: t /\ Py.isspace c = false)
  /\ (exists c t, rev v = c :: t /\ Py.isspace c = false)
  /\ Forall (fun c => (c =? Py.LF)%N = false) v
  /\ Forall (fun c => (c =? 58)%N = false) v.

(** A frame of the wire protocol: the header declares the number of bytes of
    the body. *)
Definition wire_frame (body : str) : str :=
  content_length_header (N.of_nat (Py.utf8_len body)) ++ body.

Definition response (response_id result : json) : json :=
  JObj [(u "jsonrpc", JStr (u "2.0")); (u "id", response_id); (u "result", result)].

Definition error_response (response_id : json) (code : Z) (message : str) : json :=
  JObj [(u "jsonrpc", JStr (u "2.0")); (u "id", response_id);
        (u "error", JObj [(u "code", JInt code); (u "message", JStr message)])].

(** The three lines that [send_response] and [send_error] share: serialize,
    write the frame, flush. *)
Definition send (msg : json) (w : world) : world :=
  write_stdout w (frame (json_dumps L msg)).

(** [send_response], lines 136-141. *)
Definition send_response (response_id result : json) (w : world) : world :=
  send (response response_id result) w.

(** [send_error], lines 144-149. *)
Definition send_error (response_id : json) (code : Z) (message : str) (w : world) : world :=
  send (error_response response_id code message) w.

Definition initialize_result : json :=
  JObj [(u "protocolVersion", JStr (u "2024-11-05"));
        (u "capabilities", JObj [(u "tools", JObj [])]);
        (u "serverInfo", JObj [(u "name", JStr (u "oracle-telegram-bridge"));
                               (u "version", JStr (u "1.0.0"))])].

Definition text_content (result_text : str) : json :=
  JObj [(u "content",
         JArr [JObj [(u "type", JStr (u "text")); (u "text", JStr result_text)]])].

(** The inner loop of [main], lines 157-164: [None] is the end of input. *)
Fixpoint read_header_loop (fuel : nat) (header inp : str) : option (str * str) :=
  match fuel with
  | O => None
  | S f =>
      let (line, rest) := Py.readline inp in
      match line with
      | [] => None
      | _ =>
          let header' := header ++ line in
          if Py.endswith header' (CRLF ++ CRLF) || Py.endswith header' [Py.LF; Py.LF]
          then Some (header', rest)
          else read_header_loop f header' rest
      end
  end.

Definition read_header (inp : str) : option (str * str) :=
  read_header_loop (S (List.length inp)) [] inp.

(** Lines 167-170. *)
Fixpoint scan_header_lines (hs : list str) (content_length : Z) : result Z :=
  match hs with
  | [] => Ok content_length
  | h :: hs' =>
      if Py.startswith (Py.lower h) (u "content-length:") then
        match Py.int_of_str (Py.strip (nth 1 (Py.split 58 h) [])) with
        | Some n => scan_header_lines hs' n
        | None => Raise ValueError
        end
      else scan_header_lines hs' content_length
  end.

Definition parse_content_length (header : str) : result Z :=
  scan_header_lines (Py.split Py.LF (Py.strip header)) 0.

(** The methods that [main] names, lines 183-207. *)
Definition named_methods : list str :=
  [u "initialize"; u "notifications/initialized"; u "tools/list"; u "tools/call"; u "ping"].

(** The method dispatch of [main], lines 179-212. *)
Definition dispatch (msg : json) (w : world) : result unit * world :=
  match py_get msg (u "method") (JStr []) with
  | Raise e => (Raise e, w)
  | Ok method =>
  match py_get msg (u "id") JNull with
  | Raise e => (Raise e, w)
  | Ok msg_id =>
  match py_get msg (u "params") (JObj []) with
  | Raise e => (Raise e, w)
  | Ok params =>
      if eq_str method (u "initialize") then
        (Ok tt, send_response msg_id initialize_result w)
      else if eq_str method (u "notifications/initialized") then
        (Ok tt, w)
      else if eq_str method (u "tools/list") then
        (Ok tt, send_response msg_id (JObj [(u "tools", TOOLS)]) w)
      else if eq_str method (u "tools/call") then
        match py_get params (u "name") (JStr []) with
        | Raise e => (Raise e, w)
        | Ok tool_name =>
        match py_get params (u "arguments") (JObj []) with
        | Raise e => (Raise e, w)
        | Ok tool_args =>
            match handle_tool_call tool_name tool_args (clock w (tick w)) (disk w) with
            | (Raise e, fs) => (Raise e, after_call w fs)
            | (Ok result_text, fs) =>
                (Ok tt, send_response msg_id (text_content result_text) (after_call w fs))
            end
        end
        end
      else if eq_str method (u "ping") then
        (Ok tt, send_response msg_id (JObj []) w)
      else if negb (match msg_id with JNull => true | _ => false end) then
        (Ok tt, send_error msg_id (-32601) (u "Method not found: " ++ py_str method) w)
      else (Ok tt, w)
  end end end.

(** The two [except] clauses of [main], lines 214-218. *)
Definition on_exception (e : exn) (w : world) : world :=
  match e with
  | JSONDecodeError => w
  | _ => write_stderr w e
  end.

(** Reading one frame, lines 156-177. *)
Inductive received : Type :=
| Eof                                  (* [return], line 161 *)
| Skipped (rest : str)                 (* [continue], line 173 *)
| Failed (e : exn) (rest : str)        (* an exception of lines 170 or 177 *)
| Message (msg : json) (rest : str).

Definition receive (inp : str) : received :=
  match read_header inp with
  | None => Eof
  | Some (header, inp1) =>
      match parse_content_length header with
      | Raise e => Failed e inp1
      | Ok content_length =>
          if (content_length =? 0)%Z then Skipped inp1
          else
            let (body, inp2) := Py.read content_length inp1 in
            match json_loads L body with
            | None => Failed JSONDecodeError inp2
            | Some msg => Message msg inp2
            end
      end
  end.

(** Dispatching a message under the [try] of [main]. *)
Definition serve (msg : json) (w : world) : world :=
  match dispatch msg w with
  | (Ok _, w') => w'
  | (Raise e, w') => on_exception e w'
  end.

Inductive control : Type :=
| Return (w : world)       (* [return] at the end of input *)
| Continue (w : world).    (* back to the head of the [while True] loop *)

(** One turn of the loop of [main], lines 155-218. *)
Definition iteration (w : world) : control :=
  match receive (stdin w) with
  | Eof => Return (with_stdin w [])
  | Skipped rest => Continue (with_stdin w rest)
  | Failed e rest => Continue (on_exception e (with_stdin w rest))
  | Message msg rest => Continue (serve msg (with_stdin w rest))
  end.

(** [main], lines 152-218: [None] when the fuel runs out before the end of
    input is reached. *)
Fixpoint main (fuel : nat) (w : world) : option world :=
  match fuel with
  | O => None
  | S f =>
      match iteration w with
      | Return w' => Some w'
      | Continue w' => main f w'
      end
  end.

End Server.

(** ** The collaborator: [oracle_telegram.py] *)

(** The fields of [OracleState] that [_log_conversation] reports. *)
Record OracleState : Type := mkOracleState {
  agent_id : json;
  position : json;
  connected : bool;
  autonomous : bool
}.

Section Collaborator.

Variable L : PyLib.

Definition conversation_entry (user_msg oracle_reply : str) (now : float) : json :=
  JObj [(u "timestamp", JFloat now);
        (u "user", JStr user_msg);
        (u "oracle", JStr oracle_reply)].

Definition status_block (state : OracleState) (now : float) : json :=
  JObj [(u "connected", JBool (connected state));
        (u "agent_id", agent_id state);
        (u "position", position state);
        (u "autonomous", JBool (autonomous state));
        (u "last_active", JFloat now)].

(** The body of the [try] of [_log_conversation], lines 168-191, up to the
    document it writes.  [t1] and [t2] are the two readings of the clock. *)
Definition updated_state (user_msg oracle_reply : str) (t1 t2 : float)
    (state : OracleState) (f : file) : result json :=
  shared <- match f with
            | Absent => Ok default_state
            | Corrupt => Raise JSONDecodeError
            | Doc v => Ok v
            end ;;
  convos <- py_item shared (u "conversations") ;;
  match shared with
  | JObj d =>
      match convos with
      | JArr cs =>
          let cs1 := cs ++ [conversation_entry user_msg oracle_reply t1] in
          let d1 := dict_set (u "conversations") (JArr (Py.slice_from (-50) cs1)) d in
          Ok (JObj (dict_set (u "status") (status_block state t2) d1))
      | _ => Raise AttributeError   (* no [append] *)
      end
  | _ => Raise TypeError
  end.

(** [_log_conversation], lines 164-193: a failure is logged and the file is
    left as it was. *)
Definition _log_conversation (user_msg oracle_reply : str) (t1 t2 : float)
    (state : OracleState) (f : file) : file :=
  match updated_state user_msg oracle_reply t1 t2 state f with
  | Ok v => Doc v
  | Raise _ => f
  end.

(** One call of [_log_conversation]: the two texts, the two readings of the
    clock and the state of the bot at the time. *)
Record turn : Type := mkTurn {
  turn_user : str;
  turn_reply : str;
  turn_t1 : float;
  turn_t2 : float;
  turn_state : OracleState
}.

(** Successive calls of [_log_conversation]. *)
Definition log_all (turns : list turn) (f : file) : file :=
  fold_left (fun f t => _log_conversation (turn_user t) (turn_reply t)
                          (turn_t1 t) (turn_t2 t) (turn_state t) f)
            turns f.

Definition entry_of (t : turn) : json :=
  conversation_entry (turn_user t) (turn_reply t) (turn_t1 t).

(** What the state file holds: the conversations [cs], from a file not yet
    written or from a document with the two keys. *)
Definition holds (f : file) (cs : list json) : Prop :=
  (f = Absent /\ cs = [])
  \/ exists status, f = Doc (JObj [(u "conversations", JArr cs); (u "status", status)]).

(** The text relayed for one queued entry, lines 661-664; character 128225 is
    the satellite antenna sign. *)
Definition relay_text (text : json) : str :=
  [128225%N] ++ u " [From Claude Code]: " ++ py_str L text.

(** The [for] loop of [check_pending_messages], lines 658-664.  [deliver]
    tells whether [ctx.bot.send_message] succeeds; the second component is
    what has been delivered. *)
Fixpoint relay (TG_CHAT_ID : str) (deliver : Z -> str -> bool)
    (pending : list json) : result unit * list (Z * str) :=
  match pending with
  | [] => (Ok tt, [])
  | msg :: rest =>
      match py_get msg (u "message") (JStr []) with
      | Raise e => (Raise e, [])
      | Ok text =>
          if truthy text then
            match Py.int_of_str TG_CHAT_ID with
            | None => (Raise ValueError, [])
            | Some chat_id =>
                if deliver chat_id (relay_text text) then
                  let (r, sent) := relay TG_CHAT_ID deliver rest in
                  (r, (chat_id, relay_text text) :: sent)
                else (Raise OSError, [])
            end
          else relay TG_CHAT_ID deliver rest
      end
  end.

(** [check_pending_messages], lines 645-669: the file afterwards and the
    messages delivered. *)
Definition check_pending_messages (TG_CHAT_ID : str) (deliver : Z -> str -> bool)
    (f : file) : file * list (Z * str) :=
  match TG_CHAT_ID with
  | [] => (f, [])
  | _ =>
      match f with
      | Absent => (f, [])
      | Corrupt => (f, [])
      | Doc pending =>
          if negb (truthy pending) then (f, [])
          else
            match pending with
            | JArr items =>
                match relay TG_CHAT_ID deliver items with
                | (Ok _, sent) => (Doc (JArr []), sent)
                | (Raise _, sent) => (f, sent)
                end
            | _ => (f, [])   (* iterating or [msg.get] raises *)
            end
      end
  end.

(** [s.find(c)] for one character [c]: the first index, or -1. *)
Fixpoint find_char (c : N) (s : str) : Z :=
  match s with
  | [] => (-1)%Z
  | x :: s' =>
      if (x =? c)%N then 0%Z
      else let i := find_char c s' in
           if (i <? 0)%Z then (-1)%Z else (i + 1)%Z
  end.

(** [s.rfind(c)]: the last index, or -1. *)
Definition rfind_char (c : N) (s : str) : Z :=
  let i := find_char c (rev s) in
  if (i <? 0)%Z then (-1)%Z else (Z.of_nat (List.length s) - 1 - i)%Z.

(** [s[a:b]] for [0 <= a]. *)
Definition slice_between (a b : Z) (s : str) : str :=
  firstn (Z.to_nat (b - a)) (skipn (Z.to_nat a) s).

Definition IDLE : json := JObj [(u "action", JStr (u "IDLE"))].

(** The end of [ask_claude_for_action], lines 233-243: the action decoded
    from the span between the first opening and the last closing brace of the
    reply, and [IDLE] when there is no such span or it does not decode. *)
Definition parse_action (raw : str) : json :=
  let start := find_char 123 raw in
  let stop := (rfind_char 125 raw + 1)%Z in
  if (0 <=? start)%Z && (start <? stop)%Z then
    match json_loads L (slice_between start stop raw) with
    | Some action => action
    | None => IDLE
    end
  else IDLE.




End Collaborator.

(** ** A reference implementation of the library functions

    Enough of Python's [json], [repr] and [time] to run the server on
    concrete input: the JSON codec follows [json.dumps] (default separators,
    ASCII output) and [json.loads]; [local_hms] is the time of day in UTC. *)

Module Ref.

Open Scope N_scope.

Definition hex_digit (n : N) : N := if n <? 10 then 48 + n else 87 + n.

Definition hex4 (c : N) : str :=
  [hex_digit (c / 4096 mod 16); hex_digit (c / 256 mod 16);
   hex_digit (c / 16 mod 16); hex_digit (c mod 16)].

Definition escape_u (c : N) : str := [92; 117] ++ hex4 c.

Definition escape_char (c : N) : str :=
  if c =? 34 then [92; 34]
  else if c =? 92 then [92; 92]
  else if c =? 10 then [92; 110]
  else if c =? 13 then [92; 114]
  else if c =? 9 then [92; 116]
  else if c =? 8 then [92; 98]
  else if c =? 12 then [92; 102]
  else if (32 <=? c) && (c <=? 126) then [c]
  else if c <? 65536 then escape_u c
  else escape_u (55296 + (c - 65536) / 1024) ++ escape_u (56320 + (c - 65536) mod 1024).

Definition quote (s : str) : str := [34] ++ flat_map escape_char s ++ [34].

(** *** Floats and decimals *)

Definition round_half_even (num den : Z) : Z :=
  let q := (num / den)%Z in
  let r := (num mod den)%Z in
  match (2 * r ?= den)%Z with
  | Lt => q
  | Gt => (q + 1)%Z
  | Eq => if Z.even q then q else (q + 1)%Z
  end.

(** The double nearest to [num / den], for positive [num] and [den]. *)
Definition float_of_ratio (num den : Z) : float :=
  let s := Z.max 0 (Z.log2 den - Z.log2 num + 64) in
  let q := (num * 2 ^ s / den)%Z in
  let r := ((num * 2 ^ s) mod den)%Z in
  let m := (2 * q + (if (r =? 0)%Z then 0 else 1))%Z in
  SF2Prim (binary_normalize 53 1024 m (- s - 1) false).

(** The double nearest to [digits * 10 ^ exp10]. *)
Definition float_of_decimal (neg : bool) (digits : N) (exp10 : Z) : float :=
  let x := match digits with
           | 0 => 0%float
           | _ => if (0 <=? exp10)%Z
                  then float_of_ratio (Z.of_N digits * 10 ^ exp10) 1
                  else float_of_ratio (Z.of_N digits) (10 ^ (- exp10))
           end in
  if neg then PrimFloat.opp x else x.

(** [x >= 10 ^ k] for the positive rational [x = num / den]. *)
Definition ge_pow10 (num den k : Z) : bool :=
  if (0 <=? k)%Z then (10 ^ k * den <=? num)%Z else (den <=? num * 10 ^ (- k))%Z.

(** The decimal exponent [k] with [10 ^ k <= num / den < 10 ^ (k + 1)]. *)
Definition exponent10 (num den : Z) : Z :=
  let k0 := ((Z.log2 num - Z.log2 den) * 30103 / 100000 - 1)%Z in
  let up k := if ge_pow10 num den (k + 1) then (k + 1)%Z else k in
  up (up (up k0)).

(** [p] significant decimal digits of [num / den]: the digits, as a number,
    and the decimal exponent of the first one. *)
Definition decimal_digits (p : Z) (num den : Z) : Z * Z :=
  let k := exponent10 num den in
  let j := (p - 1 - k)%Z in
  let n := if (0 <=? j)%Z then round_half_even (num * 10 ^ j) den
           else round_half_even num (den * 10 ^ (- j)) in
  if (10 ^ p <=? n)%Z then ((n / 10)%Z, (k + 1)%Z) else (n, k).

Fixpoint strip_zeros (fuel : nat) (n : Z) : Z :=
  match fuel with
  | O => n
  | S f => if (n mod 10 =? 0)%Z && negb (n =? 0)%Z then strip_zeros f (n / 10)%Z else n
  end.

(** The shortest digits that decode to the same double. *)
Fixpoint shortest_digits (fuel : nat) (p : Z) (x : float) (num den : Z) : Z * Z :=
  let (n, k) := decimal_digits p num den in
  match fuel with
  | O => (n, k)
  | S f =>
      let n' := strip_zeros 17 n in
      let len := Z.of_nat (List.length (Py.str_of_Z n')) in
      if PrimFloat.eqb (float_of_decimal false (Z.to_N n') (k - len + 1)) x
      then (n', k)
      else shortest_digits f (p + 1) x num den
  end.

Definition zeros (n : Z) : str := repeat 48 (Z.to_nat n).

(** [repr] of a finite, non-zero double from its shortest digits. *)
Definition layout (s : bool) (n k : Z) : str :=
  let ds := Py.str_of_Z n in
  let len := Z.of_nat (List.length ds) in
  (if s then [45] else []) ++
  if ((-4 <=? k) && (k <? 16))%Z then
    if (0 <=? k)%Z then
      if (len <=? k + 1)%Z then ds ++ zeros (k + 1 - len) ++ u ".0"
      else firstn (Z.to_nat (k + 1)) ds ++ [46] ++ skipn (Z.to_nat (k + 1)) ds
    else u "0." ++ zeros (- k - 1) ++ ds
  else
    firstn 1 ds ++ (if (1 <? len)%Z then [46] ++ skipn 1 ds else [])
    ++ [101] ++ (if (k <? 0)%Z then [45] else [43])
    ++ (if (Z.abs k <? 10)%Z then [48] else []) ++ Py.str_of_Z (Z.abs k).

Definition float_repr (nan inf : str) (x : float) : str :=
  match Prim2SF x with
  | S754_nan => nan
  | S754_infinity s => (if s then [45] else []) ++ inf
  | S754_zero s => if s then u "-0.0" else u "0.0"
  | S754_finite s m e =>
      let num := if (0 <=? e)%Z then (Zpos m * 2 ^ e)%Z else Zpos m in
      let den := if (0 <=? e)%Z then 1%Z else (2 ^ (- e))%Z in
      let (n, k) := shortest_digits 17 1 (PrimFloat.abs x) num den in
      layout s n k
  end.

(** *** [json.dumps] *)

Fixpoint dumps (v : json) : str :=
  match v with
  | JNull => u "null"
  | JBool true => u "true"
  | JBool false => u "false"
  | JInt z => Py.str_of_Z z
  | JFloat f => float_repr (u "NaN") (u "Infinity") f
  | JStr s => quote s
  | JArr l => u "[" ++ Py.join (u ", ") (map dumps l) ++ u "]"
  | JObj d =>
      u "{" ++ Py.join (u ", ") (map (fun '(k, x) => quote k ++ u ": " ++ dumps x) d)
      ++ u "}"
  end.

(** *** [json.loads] *)

Definition is_ws (c : N) : bool := (c =? 32) || (c =? 9) || (c =? 10) || (c =? 13).

Fixpoint skip_ws (s : str) : str :=
  match s with
  | c :: s' => if is_ws c then skip_ws s' else s
  | [] => []
  end.

Definition hex_val (c : N) : option N :=
  if Py.is_digit c then Some (c - 48)
  else if (97 <=? c) && (c <=? 102) then Some (c - 87)
  else if (65 <=? c) && (c <=? 70) then Some (c - 55)
  else None.

Definition hex4_val (a b c d : N) : option N :=
  match hex_val a, hex_val b, hex_val c, hex_val d with
  | Some x, Some y, Some z, Some w => Some (4096 * x + 256 * y + 16 * z + w)
  | _, _, _, _ => None
  end.

Definition simple_escape (e : N) : option N :=
  if e =? 34 then Some 34
  else if e =? 92 then Some 92
  else if e =? 47 then Some 47
  else if e =? 98 then Some 8
  else if e =? 102 then Some 12
  else if e =? 110 then Some 10
  else if e =? 114 then Some 13
  else if e =? 116 then Some 9
  else None.

(** The low half of a surrogate pair, when the text starts with one. *)
Definition low_surrogate (s : str) : option N :=
  match s with
  | b :: c :: a1 :: a2 :: a3 :: a4 :: _ =>
      if (b =? 92) && (c =? 117) then
        match hex4_val a1 a2 a3 a4 with
        | Some lo => if (56320 <=? lo) && (lo <=? 57343) then Some lo else None
        | None => None
        end
      else None
  | _ => None
  end.

(** The characters of a string literal after its opening quote. *)
Fixpoint parse_string (fuel : nat) (s : str) (acc : str) : option (str * str) :=
  match fuel with
  | O => None
  | S f =>
      match s with
      | [] => None
      | c :: r =>
          if c =? 34 then Some (rev acc, r)
          else if c <? 32 then None
          else if c =? 92 then
            match r with
            | [] => None
            | e :: r1 =>
                if e =? 117 then
                  match r1 with
                  | a1 :: a2 :: a3 :: a4 :: r2 =>
                      match hex4_val a1 a2 a3 a4 with
                      | None => None
                      | Some hi =>
                          match (if (55296 <=? hi) && (hi <=? 56319)
                                 then low_surrogate r2 else None) with
                          | Some lo =>
                              parse_string f (skipn 6 r2)
                                (65536 + (hi - 55296) * 1024 + (lo - 56320) :: acc)
                          | None => parse_string f r2 (hi :: acc)
                          end
                      end
                  | _ => None
                  end
                else
                  match simple_escape e with
                  | Some x => parse_string f r1 (x :: acc)
                  | None => None
                  end
            end
          else parse_string f r (c :: acc)
      end
  end.

Fixpoint span_digits (s : str) : str * str :=
  match s with
  | c :: s' =>
      if Py.is_digit c then let (d, r) := span_digits s' in (c :: d, r) else ([], s)
  | [] => ([], [])
  end.

Definition digits_value (ds : str) : N :=
  fold_left (fun acc c => 10 * acc + (c - 48)) ds 0.

(** A number literal: an optional minus sign, 0 or digits without a leading
    0, an optional fraction, an optional exponent. *)
Definition parse_number (s : str) : option (json * str) :=
  let (neg, s0) := match s with
                   | c :: r => if c =? 45 then (true, r) else (false, s)
                   | [] => (false, s)
                   end in
  let (ip, s1) := match s0 with
                  | c :: r => if c =? 48 then ([48], r) else span_digits s0
                  | [] => ([], [])
                  end in
  match ip with
  | [] => None
  | _ =>
      let (fp, s2) := match s1 with
                      | c :: r =>
                          if c =? 46 then
                            match span_digits r with
                            | ([], _) => ([], s1)
                            | (d, r') => (d, r')
                            end
                          else ([], s1)
                      | [] => ([], s1)
                      end in
      let '(ex, s3) :=
        match s2 with
        | c :: r =>
            if (c =? 101) || (c =? 69) then
              let (eneg, r0) := match r with
                                | g :: r' => if g =? 45 then (true, r')
                                             else if g =? 43 then (false, r')
                                             else (false, r)
                                | [] => (false, r)
                                end in
              match span_digits r0 with
              | ([], _) => (None, s2)
              | (d, r') => (Some (if eneg then (- Z.of_N (digits_value d))%Z
                                  else Z.of_N (digits_value d)), r')
              end
            else (None, s2)
        | [] => (None, s2)
        end in
      match fp, ex with
      | [], None =>
          Some (JInt (if neg then (- Z.of_N (digits_value ip))%Z
                      else Z.of_N (digits_value ip)), s3)
      | _, _ =>
          let e := match ex with Some e => e | None => 0%Z end in
          Some (JFloat (float_of_decimal neg (digits_value (ip ++ fp))
                          (e - Z.of_nat (List.length fp))), s3)
      end
  end.

Definition literals : list (str * json) :=
  [(u "null", JNull); (u "true", JBool true); (u "false", JBool false);
   (u "NaN", JFloat PrimFloat.nan); (u "Infinity", JFloat PrimFloat.infinity);
   (u "-Infinity", JFloat PrimFloat.neg_infinity)].

Fixpoint parse_literal (ls : list (str * json)) (s : str) : option (json * str) :=
  match ls with
  | [] => None
  | (name, v) :: ls' =>
      if Py.startswith s name then Some (v, skipn (List.length name) s)
      else parse_literal ls' s
  end.

Fixpoint parse_value (fuel : nat) (s : str) : option (json * str) :=
  match fuel with
  | O => None
  | S f =>
      match s with
      | [] => None
      | c :: r =>
          if c =? 34 then
            match parse_string (List.length r) r [] with
            | Some (t, r') => Some (JStr t, r')
            | None => None
            end
          else if c =? 91 then
            match skip_ws r with
            | c' :: r' =>
                if c' =? 93 then Some (JArr [], r')
                else parse_items f (c' :: r') []
            | [] => None
            end
          else if c =? 123 then
            match skip_ws r with
            | c' :: r' =>
                if c' =? 125 then Some (JObj [], r')
                else parse_members f (c' :: r') []
            | [] => None
            end
          else
            match parse_literal literals s with
            | Some x => Some x
            | None => parse_number s
            end
      end
  end

with parse_items (fuel : nat) (s : str) (acc : list json) : option (json * str) :=
  match fuel with
  | O => None
  | S f =>
      match parse_value f s with
      | None => None
      | Some (v, r) =>
          match skip_ws r with
          | c :: r' =>
              if c =? 44 then parse_items f (skip_ws r') (acc ++ [v])
              else if c =? 93 then Some (JArr (acc ++ [v]), r')
              else None
          | [] => None
          end
      end
  end

with parse_members (fuel : nat) (s : str) (acc : list (str * json)) : option (json * str) :=
  match fuel with
  | O => None
  | S f =>
      match s with
      | c :: r =>
          if c =? 34 then
            match parse_string (List.length r) r [] with
            | None => None
            | Some (k, r1) =>
                match skip_ws r1 with
                | c1 :: r2 =>
                    if c1 =? 58 then
                      match parse_value f (skip_ws r2) with
                      | None => None
                      | Some (v, r3) =>
                          match skip_ws r3 with
                          | c3 :: r4 =>
                              if c3 =? 44 then
                                parse_members f (skip_ws r4) (dict_set k v acc)
                              else if c3 =? 125 then Some (JObj (dict_set k v acc), r4)
                              else None
                          | [] => None
                          end
                      end
                    else None
                | [] => None
                end
            end
          else None
      | [] => None
      end
  end.

Definition loads (s : str) : option json :=
  match parse_value (S (List.length s)) (skip_ws s) with
  | Some (v, r) => match skip_ws r with [] => Some v | _ => None end
  | None => None
  end.

(** *** [repr] and the local time *)

Definition repr_char (c : N) : str :=
  if c =? 92 then [92; 92]
  else if c =? 39 then [92; 39]
  else if c =? 10 then [92; 110]
  else if c =? 13 then [92; 114]
  else if c =? 9 then [92; 116]
  else if (c <? 32) || (c =? 127) then [92; 120; hex_digit (c / 16); hex_digit (c mod 16)]
  else [c].

(** [repr] of a text that holds no double quote together with a single one. *)
Definition repr_str (s : str) : str :=
  if existsb (N.eqb 39) s && negb (existsb (N.eqb 34) s)
  then [34] ++ flat_map (fun c => if c =? 39 then [c] else repr_char c) s ++ [34]
  else [39] ++ flat_map repr_char s ++ [39].

Fixpoint repr (v : json) : str :=
  match v with
  | JNull => u "None"
  | JBool true => u "True"
  | JBool false => u "False"
  | JInt z => Py.str_of_Z z
  | JFloat f => float_repr (u "nan") (u "inf") f
  | JStr s => repr_str s
  | JArr l => u "[" ++ Py.join (u ", ") (map repr l) ++ u "]"
  | JObj d =>
      u "{" ++ Py.join (u ", ") (map (fun '(k, x) => repr_str k ++ u ": " ++ repr x) d)
      ++ u "}"
  end.

Definition two_digits (n : Z) : str :=
  (if (n <? 10)%Z then [48] else []) ++ Py.str_of_Z n.

(** The whole seconds of a number: [floor]. *)
Definition seconds (x : json) : option Z :=
  match x with
  | JInt z => Some z
  | JBool b => Some (if b then 1 else 0)%Z
  | JFloat f =>
      match Prim2SF f with
      | S754_zero _ => Some 0%Z
      | S754_finite s m e =>
          let v := if s then Zneg m else Zpos m in
          Some (if (0 <=? e)%Z then v * 2 ^ e else v / 2 ^ (- e))%Z
      | _ => None
      end
  | _ => None
  end.

(** The time of day in UTC; no answer beyond the years [time.localtime]
    can express. *)
Definition utc_hms (x : json) : option str :=
  match seconds x with
  | Some t =>
      if (Z.abs t <? 2 ^ 55)%Z then
        let d := (t mod 86400)%Z in
        Some (two_digits (d / 3600) ++ [58] ++ two_digits (d / 60 mod 60)
              ++ [58] ++ two_digits (d mod 60))
      else None
  | None => None
  end.

Definition lib : PyLib := mkPyLib loads dumps repr utc_hms.

End Ref.

(** The id of a request, null when it has none: [msg.get("id")], line 180. *)
Definition id_of (d : list (str * json)) : json :=
  match assoc (u "id") d with
  | Some v => v
  | None => JNull
  end.

(** ** Concrete inputs *)

Module Sample.

Definition no_files : files := mkFiles Absent Absent.

(** A server started on the input [inp], with no file on disk and a clock
    that stands at 1000 seconds. *)
Definition start (inp : str) : world :=
  mkWorld inp [] [] no_files (fun _ => 1000%float) 0.

Definition ping (id : Z) : json :=
  JObj [(u "jsonrpc", JStr (u "2.0")); (u "id", JInt id); (u "method", JStr (u "ping"))].

(** A ping request whose body holds one character outside ASCII (233, e with
    acute accent): 51 characters, 52 bytes. *)
Definition accented_body : str :=
  uq "{'jsonrpc':'2.0','id':1,'method':'ping','note':'" ++ [233%N] ++ uq "'}".

Definition ping1_body : str := uq "{'jsonrpc':'2.0','id':1,'method':'ping'}".

Definition ping2_body : str := uq "{'jsonrpc':'2.0','id':2,'method':'ping'}".

(** A header block without [Content-Length]. *)
Definition foreign_header : str := u "Content-Type: application/json" ++ CRLF ++ CRLF.

Definition unknown_method_request : json :=
  JObj [(u "id", JInt 7); (u "method", JStr (u "foo/bar"))].

(** A call of [oracle_get_conversations] whose [limit] is a text. *)
Definition text_limit_call : json :=
  JObj [(u "jsonrpc", JStr (u "2.0")); (u "id", JInt 1);
        (u "method", JStr (u "tools/call"));
        (u "params",
         JObj [(u "name", JStr (u "oracle_get_conversations"));
               (u "arguments", JObj [(u "limit", JStr (u "5"))])])].

Definition status_call : json :=
  JObj [(u "jsonrpc", JStr (u "2.0")); (u "id", JInt 1);
        (u "method", JStr (u "tools/call"));
        (u "params", JObj [(u "name", JStr (u "oracle_get_status"))])].

Definition bot : OracleState :=
  mkOracleState (JStr (u "agent-1")) (JObj [(u "x", JInt 3); (u "z", JInt 4)]) true false.

(** The state file after one conversation logged at second 1000. *)
Definition one_conversation : files :=
  mkFiles (_log_conversation (u "hi") (u "hello") 1000 1000 bot Absent) Absent.

(** Sixty turns, numbered by their clock reading. *)
Definition numbered_turn (i : nat) : turn :=
  mkTurn (Py.str_of_N (N.of_nat i)) (u "ok")
         (PrimFloat.of_uint63 (Uint63.of_Z (Z.of_nat i)))
         (PrimFloat.of_uint63 (Uint63.of_Z (Z.of_nat i))) bot.

Definition sixty_turns : list turn := map numbered_turn (seq 0 60).

End Sample.

(** * Properties *)

(** ** Text *)

Module PyFacts.

Import Py.
Open Scope N_scope.

Ltac cases :=
  repeat match goal with
         | |- context [N.leb ?a ?b] => destruct (N.leb_spec a b)
         | |- context [N.ltb ?a ?b] => destruct (N.ltb_spec a b)
         | |- context [N.eqb ?a ?b] => destruct (N.eqb_spec a b)
         end; simpl; try lia; try congruence; auto.

Lemma is_digit_range c : is_digit c = true <-> 48 <= c <= 57.
Proof. unfold is_digit. rewrite andb_true_iff, !N.leb_le. tauto. Qed.

Lemma digit_not_space c : is_digit c = true -> isspace c = false.
Proof. rewrite is_digit_range. intros H. unfold isspace. cases. Qed.

Lemma digit_neq c x : is_digit c = true -> (x < 48 \/ 57 < x) -> (c =? x) = false.
Proof. rewrite is_digit_range. intros. apply N.eqb_neq. lia. Qed.


Lemma mod10_digit n : is_digit (48 + n mod 10) = true.
Proof.
  apply is_digit_range.
  assert (H : n mod 10 < 10) by (apply N.mod_upper_bound; lia).
  revert H. generalize (n mod 10). intros. lia.
Qed.

Lemma div_mod10 n : exists q r, n / 10 = q /\ n mod 10 = r /\ n = 10 * q + r /\ r < 10.
Proof.
  exists (n / 10), (n mod 10). repeat split.
  - apply N.div_mod. lia.
  - apply N.mod_upper_bound. lia.
Qed.

Lemma dec_digits_digits fuel : forall n acc,
  Forall (fun c => is_digit c = true) acc ->
  Forall (fun c => is_digit c = true) (dec_digits fuel n acc).
Proof.
  induction fuel as [|f IH]; intros n acc Hacc; simpl; auto.
  pose proof (mod10_digit n) as Hd.
  destruct (n <? 10); [constructor; auto | apply IH; constructor; auto].
Qed.

Lemma dec_digits_nonempty fuel : forall n acc, acc <> [] -> dec_digits fuel n acc <> [].
Proof.
  induction fuel as [|f IH]; intros n acc Hacc; simpl; auto.
  destruct (n <? 10); [discriminate | apply IH; discriminate].
Qed.

Lemma str_of_N_digits n : digits (str_of_N n).
Proof.
  split.
  - unfold str_of_N. simpl. destruct (n <? 10); [discriminate|].
    apply dec_digits_nonempty. discriminate.
  - apply dec_digits_digits. constructor.
Qed.

Lemma int_digits_dec fuel : forall n acc,
  n < 2 ^ N.of_nat fuel ->
  int_digits 0 (dec_digits fuel n acc) = int_digits n acc.
Proof.
  induction fuel as [|f IH]; intros n acc Hn.
  - simpl in *. assert (n = 0) by lia. subst. reflexivity.
  - cbn [dec_digits].
    pose proof (mod10_digit n) as Hd.
    destruct (div_mod10 n) as (q & r & Hq & Hr & Hn' & Hr10).
    rewrite Hq, Hr in *.
    destruct (N.ltb_spec n 10) as [Hlt|Hge].
    + cbn [int_digits]. rewrite Hd. f_equal. lia.
    + rewrite IH.
      * cbn [int_digits]. rewrite Hd. f_equal. lia.
      * rewrite Nat2N.inj_succ, N.pow_succ_r' in Hn. lia.
Qed.

Lemma int_digits_str_of_N n : int_digits 0 (str_of_N n) = Some n.
Proof.
  unfold str_of_N. rewrite int_digits_dec; [reflexivity|].
  rewrite Nat2N.inj_succ, N2Nat.id, N.pow_succ_r'.
  destruct n as [|p]; [reflexivity|].
  destruct (N.log2_spec (Npos p)) as [_ H]; [lia|].
  rewrite N.pow_succ_r' in H. exact H.
Qed.

Lemma digits_head d : digits d -> exists c t, d = c :: t /\ is_digit c = true.
Proof.
  intros [Hne Hall]. destruct d as [|c t]; [congruence|].
  exists c, t. split; auto. now inversion Hall.
Qed.

Lemma digits_last d : digits d -> exists c t, rev d = c :: t /\ is_digit c = true.
Proof.
  intros [Hne Hall]. destruct (rev d) as [|c t] eqn:E.
  - apply (f_equal (@rev N)) in E. rewrite rev_involutive in E. simpl in E. congruence.
  - exists c, t. split; auto.
    rewrite Forall_forall in Hall. apply Hall. apply in_rev. rewrite E. now left.
Qed.

Lemma digits_without d x : digits d -> (x < 48 \/ 57 < x) -> Forall (fun c => (c =? x) = false) d.
Proof.
  intros [_ Hall] Hx. eapply Forall_impl; [|exact Hall].
  intros c Hc. now apply digit_neq.
Qed.

Lemma lstrip_digits d y : digits d -> lstrip (d ++ y) = d ++ y.
Proof.
  intros H. destruct (digits_head H) as (c & t & -> & Hc).
  simpl. now rewrite (digit_not_space _ Hc).
Qed.

Lemma rstrip_digits x d : digits d -> rstrip (x ++ d) = x ++ d.
Proof.
  intros H. unfold rstrip. rewrite rev_app_distr.
  destruct (digits_last H) as (c & t & E & Hc). rewrite E.
  simpl. rewrite (digit_not_space _ Hc).
  change (c :: t ++ rev x) with ((c :: t) ++ rev x).
  rewrite <- E, <- rev_app_distr. apply rev_involutive.
Qed.

Lemma strip_digits d : digits d -> strip d = d.
Proof.
  intros H. unfold strip.
  rewrite <- (app_nil_r d) at 1. rewrite lstrip_digits, app_nil_r by assumption.
  apply (rstrip_digits [] H).
Qed.

Lemma rstrip_crlf_crlf x : rstrip (x ++ CRLF ++ CRLF) = rstrip x.
Proof. unfold rstrip. rewrite rev_app_distr. reflexivity. Qed.

Lemma readline_app l r :
  Forall (fun c => (c =? LF) = false) l -> readline (l ++ LF :: r) = (l ++ [LF], r).
Proof.
  induction 1 as [|c l Hc _ IH]; simpl.
  - reflexivity.
  - rewrite Hc, IH. reflexivity.
Qed.

Lemma split_none sep x : Forall (fun c => (c =? sep) = false) x -> split sep x = [x].
Proof.
  induction 1 as [|c l Hc _ IH]; simpl; [reflexivity|].
  now rewrite Hc, IH.
Qed.

Lemma split_one sep a b :
  Forall (fun c => (c =? sep) = false) a -> Forall (fun c => (c =? sep) = false) b ->
  split sep (a ++ sep :: b) = [a; b].
Proof.
  intros Ha Hb. induction Ha as [|c l Hc _ IH]; simpl.
  - now rewrite N.eqb_refl, split_none.
  - now rewrite Hc, IH.
Qed.

Lemma int_of_str_digits d n : digits d -> int_digits 0 d = Some n -> int_of_str d = Some (Z.of_N n).
Proof.
  intros H Hn. unfold int_of_str. rewrite strip_digits by assumption.
  destruct (digits_head H) as (c & t & -> & Hc).
  rewrite !(digit_neq _ Hc) by lia.
  simpl in Hn |- *. rewrite Hc in *. rewrite Hn. reflexivity.
Qed.

Lemma int_of_str_of_N n : int_of_str (str_of_N n) = Some (Z.of_N n).
Proof. apply int_of_str_digits; [apply str_of_N_digits | apply int_digits_str_of_N]. Qed.

Lemma prefix_text :
  u "Content-Length: " = [67; 111; 110; 116; 101; 110; 116; 45; 76; 101; 110; 103; 116; 104; 58; 32].
Proof. reflexivity. Qed.

(** The header written by [send_response] is parsed back to the length it
    declares. *)
Lemma parse_content_length_header n :
  parse_content_length (content_length_header n) = Ok (Z.of_N n).
Proof.
  pose proof (str_of_N_digits n) as Hd.
  unfold parse_content_length, content_length_header, strip.
  rewrite prefix_text.
  change (lstrip ([67; 111; 110; 116; 101; 110; 116; 45; 76; 101; 110; 103; 116; 104; 58; 32]
                  ++ str_of_N n ++ CRLF ++ CRLF))
    with ([67; 111; 110; 116; 101; 110; 116; 45; 76; 101; 110; 103; 116; 104; 58; 32]
                  ++ str_of_N n ++ CRLF ++ CRLF).
  rewrite app_assoc, rstrip_crlf_crlf, rstrip_digits by assumption.
  rewrite split_none.
  2:{ apply Forall_app. split; [repeat constructor | apply digits_without; auto; unfold LF; lia]. }
  cbn [scan_header_lines].
  replace (startswith (lower _) (u "content-length:")) with true by reflexivity.
  change ([67; 111; 110; 116; 101; 110; 116; 45; 76; 101; 110; 103; 116; 104; 58; 32] ++ str_of_N n)
    with ([67; 111; 110; 116; 101; 110; 116; 45; 76; 101; 110; 103; 116; 104] ++ 58 :: 32 :: str_of_N n).
  rewrite split_one.
  2:{ repeat constructor. }
  2:{ constructor; [reflexivity | apply digits_without; auto; lia]. }
  cbn [nth].
  change (strip (32 :: str_of_N n)) with (strip (str_of_N n)).
  rewrite strip_digits, int_of_str_of_N by assumption. reflexivity.
Qed.

Lemma header_shape n rest :
  content_length_header n ++ rest
  = ((u "Content-Length: " ++ str_of_N n) ++ [CR]) ++ LF :: ([CR] ++ LF :: rest).
Proof.
  unfold content_length_header, CRLF. rewrite <- !app_assoc. reflexivity.
Qed.

Lemma first_line_open n :
  let h := (((u "Content-Length: " ++ str_of_N n) ++ [CR]) ++ [LF]) in
  endswith h (CRLF ++ CRLF) || endswith h [LF; LF] = false.
Proof.
  intros h. unfold h, endswith. rewrite !rev_app_distr.
  destruct (digits_last (str_of_N_digits n)) as (c & t & E & Hc). rewrite E.
  simpl. rewrite (digit_neq _ Hc) by lia. reflexivity.
Qed.

Lemma read_header_loop_header fuel n rest :
  (2 <= fuel)%nat ->
  read_header_loop fuel [] (content_length_header n ++ rest)
  = Some (content_length_header n, rest).
Proof.
  intros Hf. destruct fuel as [|[|f]]; try lia.
  rewrite header_shape. cbn [read_header_loop].
  rewrite readline_app.
  2:{ rewrite !Forall_app. repeat split; [rewrite prefix_text; repeat constructor | | repeat constructor].
      apply digits_without; [apply str_of_N_digits | unfold LF; lia]. }
  destruct (digits_head (str_of_N_digits n)) as (c & t & E & Hc).
  change ([] ++ ?x) with x.
  assert (Hne : ((u "Content-Length: " ++ str_of_N n) ++ [CR]) ++ [LF] <> []).
  { intros H. apply (f_equal (@List.length N)) in H. rewrite !length_app in H. simpl in H. lia. }
  destruct (((u "Content-Length: " ++ str_of_N n) ++ [CR]) ++ [LF]) as [|x l] eqn:El; [congruence|].
  rewrite <- El. rewrite (first_line_open n).
  rewrite (@readline_app [CR] rest) by (repeat constructor).
  cbn [app]. 
  replace (endswith _ (CRLF ++ CRLF)) with true.
  2:{ unfold endswith, CRLF, CR, LF. rewrite !rev_app_distr. simpl. reflexivity. }
  cbn [orb]. f_equal. f_equal.
  unfold content_length_header, CRLF, CR, LF. rewrite <- !app_assoc. reflexivity.
Qed.

Lemma read_header_header n rest :
  read_header (content_length_header n ++ rest) = Some (content_length_header n, rest).
Proof.
  unfold read_header. apply read_header_loop_header.
  unfold content_length_header. rewrite !length_app. simpl. lia.
Qed.

Lemma read_exact body rest :
  read (Z.of_nat (List.length body)) (body ++ rest) = (body, rest).
Proof.
  unfold read. destruct (Z.ltb_spec (Z.of_nat (List.length body)) 0); [lia|].
  rewrite Nat2Z.id, firstn_app, skipn_app, Nat.sub_diag, firstn_all, skipn_all.
  simpl. now rewrite app_nil_r.
Qed.

End PyFacts.

(** ** The frame transport *)

Section Transport.

Variable L : PyLib.

Lemma length_pos_Z (body : str) : body <> [] -> (Z.of_N (N.of_nat (List.length body)) =? 0)%Z = false.
Proof.
  intros H. apply Z.eqb_neq. destruct body; [congruence|]. simpl List.length. lia.
Qed.

(** Reading a frame written with the character count of its body. *)
Lemma receive_frame body rest :
  body <> [] ->
  receive L (frame body ++ rest)
  = match json_loads L body with
    | Some msg => Message msg rest
    | None => Failed JSONDecodeError rest
    end.
Proof.
  intros Hne. unfold receive, frame.
  rewrite <- app_assoc, PyFacts.read_header_header, PyFacts.parse_content_length_header.
  rewrite length_pos_Z by assumption.
  rewrite nat_N_Z, PyFacts.read_exact. reflexivity.
Qed.

Lemma utf8_len_ascii body : Py.is_ascii body = true -> Py.utf8_len body = List.length body.
Proof.
  induction body as [|c b IH]; simpl; [reflexivity|].
  rewrite andb_true_iff. intros [Hc Hb]. unfold Py.utf8_char_len. rewrite Hc, IH by assumption.
  reflexivity.
Qed.

Lemma wire_frame_ascii body : Py.is_ascii body = true -> wire_frame body = frame body.
Proof. intros H. unfold wire_frame, frame. now rewrite utf8_len_ascii. Qed.

(** On a body of ASCII characters the reader takes exactly the frame. *)
Lemma receive_wire_frame_ascii body msg rest :
  Py.is_ascii body = true -> body <> [] -> json_loads L body = Some msg ->
  receive L (wire_frame body ++ rest) = Message msg rest.
Proof.
  intros Ha Hne Hm. rewrite wire_frame_ascii by assumption.
  rewrite receive_frame, Hm by assumption. reflexivity.
Qed.

End Transport.

(** ** Round trip of a message through the transport *)



(** ** Frames measured in bytes *)

(** C3: the reader takes [Content-Length] characters, not bytes.  On a frame
    whose 52-byte body is valid JSON of 51 characters it also takes the first
    character of the next frame, decoding fails, and neither request is
    answered. *)
Theorem receive_counts_characters :
  Ref.loads Sample.accented_body <> None
  /\ Py.utf8_len Sample.accented_body = 52%nat
  /\ List.length Sample.accented_body = 51%nat
  /\ receive Ref.lib (wire_frame Sample.accented_body ++ wire_frame Sample.ping2_body)
     = Failed JSONDecodeError (skipn 1 (wire_frame Sample.ping2_body))
  /\ exists w,
       main Ref.lib 4 (Sample.start (wire_frame Sample.accented_body
                                     ++ wire_frame Sample.ping2_body)) = Some w
       /\ stdout w = [] /\ stderr w = [].
Proof.
  split; [vm_compute; discriminate|].
  split; [reflexivity|]. split; [reflexivity|]. split; [vm_compute; reflexivity|].
  eexists. split; [vm_compute; reflexivity|]. split; reflexivity.
Qed.

(** ** Header blocks without a length *)

Section Headers.

Variable L : PyLib.

Lemma scan_header_lines_none hs n :
  Forall (fun h => Py.startswith (Py.lower h) (u "content-length:") = false) hs ->
  scan_header_lines hs n = Ok n.
Proof.
  induction 1 as [|h hs Hh _ IH]; cbn [scan_header_lines]; [reflexivity|].
  now rewrite Hh.
Qed.

Lemma iteration_frame (w : world) body msg rest :
  stdin w = frame body ++ rest -> body <> [] -> json_loads L body = Some msg ->
  iteration L w = Continue (serve L msg (with_stdin w rest)).
Proof.
  intros Hin Hne Hm. unfold iteration. rewrite Hin, receive_frame, Hm by assumption.
  reflexivity.
Qed.

End Headers.

(** C8, as the code has it: a header block without [Content-Length] that is
    directly followed by a well-formed frame with an ASCII body is passed
    over -- nothing is written, the loop goes on -- and the next turn of the
    loop serves the message of that frame. *)
Theorem header_without_length_skipped (L : PyLib) (w : world)
    (header body rest : str) (msg : json) :
  read_header (stdin w) = Some (header, wire_frame body ++ rest) ->
  Forall (fun h => Py.startswith (Py.lower h) (u "content-length:") = false)
         (Py.split Py.LF (Py.strip header)) ->
  Py.is_ascii body = true -> body <> [] -> json_loads L body = Some msg ->
  iteration L w = Continue (with_stdin w (wire_frame body ++ rest))
  /\ iteration L (with_stdin w (wire_frame body ++ rest))
     = Continue (serve L msg (with_stdin w rest)).
Proof.
  intros Hh Hnone Ha Hne Hm. split.
  - unfold iteration, receive. rewrite Hh. unfold parse_content_length.
    rewrite scan_header_lines_none by assumption. reflexivity.
  - rewrite wire_frame_ascii by assumption.
    rewrite (@iteration_frame L _ body msg rest); auto.
Qed.

Lemma header_without_length_skipped_witness :
  let w := Sample.start (Sample.foreign_header ++ wire_frame Sample.ping2_body ++ []) in
  read_header (stdin w) = Some (Sample.foreign_header, wire_frame Sample.ping2_body ++ [])
  /\ Forall (fun h => Py.startswith (Py.lower h) (u "content-length:") = false)
            (Py.split Py.LF (Py.strip Sample.foreign_header))
  /\ Py.is_ascii Sample.ping2_body = true
  /\ Sample.ping2_body <> []
  /\ json_loads Ref.lib Sample.ping2_body = Some (Sample.ping 2)
  /\ (iteration Ref.lib w = Continue (with_stdin w (wire_frame Sample.ping2_body ++ []))
      /\ iteration Ref.lib (with_stdin w (wire_frame Sample.ping2_body ++ []))
         = Continue (serve Ref.lib (Sample.ping 2) (with_stdin w []))).
Proof.
  intros w.
  assert (H1 : read_header (stdin w)
               = Some (Sample.foreign_header, wire_frame Sample.ping2_body ++ []))
    by (vm_compute; reflexivity).
  assert (H2 : Forall (fun h => Py.startswith (Py.lower h) (u "content-length:") = false)
                      (Py.split Py.LF (Py.strip Sample.foreign_header)))
    by (vm_compute; repeat constructor).
  assert (H3 : Py.is_ascii Sample.ping2_body = true) by reflexivity.
  assert (H4 : Sample.ping2_body <> []) by (vm_compute; discriminate).
  assert (H5 : json_loads Ref.lib Sample.ping2_body = Some (Sample.ping 2))
    by (vm_compute; reflexivity).
  split; [exact H1 | split; [exact H2 | split; [exact H3 | split; [exact H4 | split; [exact H5 |]]]]].
  exact (@header_without_length_skipped Ref.lib w Sample.foreign_header Sample.ping2_body []
           (Sample.ping 2) H1 H2 H3 H4 H5).
Defined.

(** C8 fails as stated: the body of a frame without [Content-Length] is not
    skipped.  It is read as header text together with the header of the next
    frame, and the request of that frame is never answered. *)
Lemma body_without_length_not_skipped :
  let inp := Sample.foreign_header ++ Sample.ping1_body
             ++ wire_frame Sample.ping2_body in
  json_loads Ref.lib Sample.ping2_body = Some (Sample.ping 2)
  /\ iteration Ref.lib (Sample.start inp)
     = Continue (Sample.start (Sample.ping1_body ++ wire_frame Sample.ping2_body))
  /\ iteration Ref.lib (Sample.start (Sample.ping1_body ++ wire_frame Sample.ping2_body))
     = Continue (Sample.start Sample.ping2_body)
  /\ iteration Ref.lib (Sample.start Sample.ping2_body) = Return (Sample.start [])
  /\ main Ref.lib 3 (Sample.start inp) = Some (Sample.start [])
  /\ stdout (Sample.start []) <> stdout (serve Ref.lib (Sample.ping 2) (Sample.start [])).
Proof.
  intros inp. repeat split; try (vm_compute; reflexivity).
  vm_compute. discriminate.
Qed.

(** ** The method dispatch *)

Lemma str_eqb_eq (a b : str) : Py.str_eqb a b = true <-> a = b.
Proof.
  revert b. induction a as [|x a IH]; intros [|y b]; simpl; split; try congruence.
  - rewrite andb_true_iff, N.eqb_eq, IH. intros [-> ->]. reflexivity.
  - intros H. injection H as -> ->. now rewrite N.eqb_refl, (proj2 (IH b) eq_refl).
Qed.

Lemma existsb_named m x :
  existsb (Py.str_eqb m) named_methods = false -> In x named_methods ->
  eq_str (JStr m) x = false.
Proof.
  intros H Hin. simpl. destruct (Py.str_eqb m x) eqn:E; [|reflexivity].
  rewrite <- H. symmetry. apply existsb_exists. exists x. auto.
Qed.

(** C4: a request with a method that [main] does not name is answered, when
    it carries an id other than null, by exactly one error frame with code
    -32601 and the message "Method not found: " followed by the method; with
    no id, or a null one, nothing at all changes. *)
Theorem unknown_method (L : PyLib) (d : list (str * json)) (m : str) (w : world) :
  assoc (u "method") d = Some (JStr m) ->
  existsb (Py.str_eqb m) named_methods = false ->
  match assoc (u "id") d with
  | None | Some JNull => serve L (JObj d) w = w
  | Some id =>
      serve L (JObj d) w
      = mkWorld (stdin w)
          (stdout w ++
           frame (json_dumps L
                    (JObj [(u "jsonrpc", JStr (u "2.0")); (u "id", id);
                           (u "error",
                            JObj [(u "code", JInt (-32601));
                                  (u "message", JStr (u "Method not found: " ++ m))])])))
          (stderr w) (disk w) (clock w) (tick w)
  end.
Proof.
  intros Hm Hk. unfold serve, dispatch, py_get. rewrite Hm.
  rewrite !(@existsb_named m _ Hk) by (simpl; auto 10).
  cbn [py_str].
  destruct (assoc (u "id") d) as [[| | | | | |]|]; reflexivity.
Qed.

Lemma unknown_method_witness :
  assoc (u "method") [(u "id", JInt 7); (u "method", JStr (u "foo/bar"))]
  = Some (JStr (u "foo/bar"))
  /\ existsb (Py.str_eqb (u "foo/bar")) named_methods = false
  /\ serve Ref.lib Sample.unknown_method_request (Sample.start [])
     = mkWorld [] ([] ++ frame (uq "{'jsonrpc': '2.0', 'id': 7, 'error': {'code': -32601, 'message': 'Method not found: foo/bar'}}"))
               [] Sample.no_files (fun _ => 1000%float) 0.
Proof.
  split; [reflexivity | split; [reflexivity |]].
  exact (@unknown_method Ref.lib [(u "id", JInt 7); (u "method", JStr (u "foo/bar"))]
           (u "foo/bar") (Sample.start []) eq_refl eq_refl).
Defined.

(** ** Tool calls *)

Lemma on_exception_stdout e w : stdout (on_exception e w) = stdout w.
Proof. destruct e; reflexivity. Qed.

(** C1, as the code has it: a [tools/call] request whose handler returns a
    text is answered by exactly one frame with that text as content; when the
    handler raises, the exception goes to the [except] clauses of [main] and
    nothing is written on the output. *)
Theorem tools_call_answer (L : PyLib) (d p : list (str * json)) (w : world) :
  assoc (u "method") d = Some (JStr (u "tools/call")) ->
  assoc (u "params") d = Some (JObj p) ->
  let msg_id := match assoc (u "id") d with Some v => v | None => JNull end in
  let name := match assoc (u "name") p with Some v => v | None => JStr [] end in
  let args := match assoc (u "arguments") p with Some v => v | None => JObj [] end in
  match handle_tool_call L name args (clock w (tick w)) (disk w) with
  | (Ok result_text, fs) =>
      serve L (JObj d) w
      = mkWorld (stdin w)
          (stdout w ++
           frame (json_dumps L
                    (JObj [(u "jsonrpc", JStr (u "2.0")); (u "id", msg_id);
                           (u "result",
                            JObj [(u "content",
                                   JArr [JObj [(u "type", JStr (u "text"));
                                               (u "text", JStr result_text)]])])])))
          (stderr w) fs (clock w) (S (tick w))
  | (Raise e, fs) =>
      serve L (JObj d) w = on_exception e (after_call w fs)
      /\ stdout (serve L (JObj d) w) = stdout w
  end.
Proof.
  intros Hm Hp msg_id name args.
  unfold serve, dispatch, py_get. rewrite Hm, Hp. cbn [eq_str].
  replace (Py.str_eqb (u "tools/call") (u "initialize")) with false by reflexivity.
  replace (Py.str_eqb (u "tools/call") (u "notifications/initialized")) with false by reflexivity.
  replace (Py.str_eqb (u "tools/call") (u "tools/list")) with false by reflexivity.
  replace (Py.str_eqb (u "tools/call") (u "tools/call")) with true by reflexivity.
  fold msg_id name args.
  destruct (handle_tool_call L name args (clock w (tick w)) (disk w)) as [[text|e] fs].
  - reflexivity.
  - split; [reflexivity | now rewrite on_exception_stdout].
Qed.

Lemma tools_call_answer_witness :
  assoc (u "method")
    [(u "jsonrpc", JStr (u "2.0")); (u "id", JInt 1); (u "method", JStr (u "tools/call"));
     (u "params", JObj [(u "name", JStr (u "oracle_get_status"))])]
  = Some (JStr (u "tools/call"))
  /\ assoc (u "params")
       [(u "jsonrpc", JStr (u "2.0")); (u "id", JInt 1); (u "method", JStr (u "tools/call"));
        (u "params", JObj [(u "name", JStr (u "oracle_get_status"))])]
     = Some (JObj [(u "name", JStr (u "oracle_get_status"))])
  /\ serve Ref.lib Sample.status_call (Sample.start [])
     = mkWorld []
         ([] ++ frame (uq "{'jsonrpc': '2.0', 'id': 1, 'result': {'content': [{'type': 'text', 'text': 'Oracle bot is not running or has not reported status yet.'}]}}"))
         [] Sample.no_files (fun _ => 1000%float) 1.
Proof.
  split; [reflexivity | split; [reflexivity |]].
  exact (@tools_call_answer Ref.lib
           [(u "jsonrpc", JStr (u "2.0")); (u "id", JInt 1);
            (u "method", JStr (u "tools/call"));
            (u "params", JObj [(u "name", JStr (u "oracle_get_status"))])]
           [(u "name", JStr (u "oracle_get_status"))]
           (Sample.start []) eq_refl eq_refl).
Defined.

(** C1 fails as stated: nothing between the handler and [main] catches an
    exception.  A call of [oracle_get_conversations] with the text "5" as
    limit raises [TypeError] in the handler; [main] reports it on the error
    stream and sends no response for request 1. *)
Lemma handler_exception_unanswered :
  handle_tool_call Ref.lib (JStr (u "oracle_get_conversations"))
    (JObj [(u "limit", JStr (u "5"))]) 1000 Sample.no_files
  = (Raise TypeError, Sample.no_files)
  /\ json_loads Ref.lib (json_dumps Ref.lib Sample.text_limit_call)
     = Some Sample.text_limit_call
  /\ exists w,
       main Ref.lib 2 (Sample.start (wire_frame (json_dumps Ref.lib Sample.text_limit_call)))
       = Some w
       /\ stdout w = [] /\ stderr w = [TypeError].
Proof.
  split; [reflexivity|]. split; [vm_compute; reflexivity|].
  eexists. split; [vm_compute; reflexivity|]. split; reflexivity.
Qed.

(** ** The queue of pending messages *)





(** ** Missing and unreadable files *)





(** ** The status report and the clock *)

(** C9, as the code has it: with the state file unchanged, two status reports
    are the same text when both are asked for less than 60 seconds after the
    recorded [last_active]. *)
Theorem get_status_stable (L : PyLib) (fs : files) (d s : list (str * json))
    (t now1 now2 : float) (args1 args2 : json) :
  SHARED_STATE_FILE fs = Doc (JObj d) ->
  assoc (u "status") d = Some (JObj s) ->
  assoc (u "last_active") s = Some (JFloat t) ->
  PrimFloat.ltb (PrimFloat.sub now1 t) float_60 = true ->
  PrimFloat.ltb (PrimFloat.sub now2 t) float_60 = true ->
  handle_tool_call L (JStr (u "oracle_get_status")) args1 now1 fs
  = handle_tool_call L (JStr (u "oracle_get_status")) args2 now2 fs.
Proof.
  intros Hf Hs Ht H1 H2.
  change (handle_tool_call L (JStr (u "oracle_get_status")) args1 now1 fs)
    with (get_status L now1 fs, fs).
  change (handle_tool_call L (JStr (u "oracle_get_status")) args2 now2 fs)
    with (get_status L now2 fs, fs).
  f_equal. unfold get_status, read_shared_state. rewrite Hf.
  cbn [py_get bind]. rewrite Hs.
  destruct (negb (truthy (JObj s))); [reflexivity|].
  cbn [py_get bind]. rewrite Ht. unfold age.
  destruct (truthy (JFloat t)); cbn [bind]; [|reflexivity].
  unfold alive_text. rewrite H1, H2. reflexivity.
Qed.

Lemma get_status_stable_witness :
  let fs := Sample.one_conversation in
  let s := [(u "connected", JBool true); (u "agent_id", JStr (u "agent-1"));
            (u "position", JObj [(u "x", JInt 3); (u "z", JInt 4)]);
            (u "autonomous", JBool false); (u "last_active", JFloat 1000)] in
  let d := [(u "conversations",
             JArr [JObj [(u "timestamp", JFloat 1000); (u "user", JStr (u "hi"));
                         (u "oracle", JStr (u "hello"))]]);
            (u "status", JObj s)] in
  SHARED_STATE_FILE fs = Doc (JObj d)
  /\ PrimFloat.ltb (PrimFloat.sub 1001 1000) float_60 = true
  /\ PrimFloat.ltb (PrimFloat.sub 1059 1000) float_60 = true
  /\ handle_tool_call Ref.lib (JStr (u "oracle_get_status")) (JObj []) 1001 fs
     = handle_tool_call Ref.lib (JStr (u "oracle_get_status")) (JObj []) 1059 fs.
Proof.
  intros fs s d.
  assert (H0 : SHARED_STATE_FILE fs = Doc (JObj d)) by (vm_compute; reflexivity).
  assert (H1 : PrimFloat.ltb (PrimFloat.sub 1001 1000) float_60 = true) by reflexivity.
  assert (H2 : PrimFloat.ltb (PrimFloat.sub 1059 1000) float_60 = true) by reflexivity.
  split; [exact H0 | split; [exact H1 | split; [exact H2 |]]].
  exact (@get_status_stable Ref.lib fs d s 1000 1001 1059 (JObj []) (JObj [])
           H0 eq_refl eq_refl H1 H2).
Defined.

(** C9 fails as stated: the report depends on the clock.  With the state
    file untouched, a report asked for 59 seconds after the last activity
    ends in "Alive: yes" and one asked for two seconds later in
    "Alive: last seen 61s ago". *)
Lemma get_status_depends_on_clock :
  get_status Ref.lib 1059 Sample.one_conversation
  = Ok (u "Connected to The Grid: True" ++ [Py.LF]
        ++ u "Agent ID: agent-1" ++ [Py.LF]
        ++ u "Position: {'x': 3, 'z': 4}" ++ [Py.LF]
        ++ u "Autonomous mode: False" ++ [Py.LF]
        ++ u "Alive: yes")
  /\ get_status Ref.lib 1061 Sample.one_conversation
     = Ok (u "Connected to The Grid: True" ++ [Py.LF]
           ++ u "Agent ID: agent-1" ++ [Py.LF]
           ++ u "Position: {'x': 3, 'z': 4}" ++ [Py.LF]
           ++ u "Autonomous mode: False" ++ [Py.LF]
           ++ u "Alive: last seen 61s ago")
  /\ handle_tool_call Ref.lib (JStr (u "oracle_get_status")) (JObj []) 1059
       Sample.one_conversation
     <> handle_tool_call Ref.lib (JStr (u "oracle_get_status")) (JObj []) 1061
          Sample.one_conversation.
Proof.
  split; [vm_compute; reflexivity|]. split; [vm_compute; reflexivity|].
  vm_compute. intros H. discriminate H.
Qed.

(** ** The limit of [oracle_get_conversations] *)

Lemma slice_from_nonneg {A} (k : Z) (l : list A) :
  (0 <= k)%Z -> Py.slice_from k l = skipn (Z.to_nat k) l.
Proof.
  intros Hk. unfold Py.slice_from.
  destruct (Z.ltb_spec k 0) as [|_]; [lia|].
  destruct (Z.le_ge_cases k (Z.of_nat (List.length l))) as [Hle|Hge].
  - now rewrite Z.min_l.
  - rewrite Z.min_r, Nat2Z.id by assumption.
    rewrite !skipn_all2; [reflexivity | lia | lia].
Qed.

(** C10: a limit of 0 selects every stored conversation, and a negative
    limit [- k] drops the first [k] of them; the selection is then formatted
    as usual, and the fixed text is returned only when nothing is left. *)
Theorem limit_zero_or_negative (L : PyLib) (a d : list (str * json))
    (cs : list json) (z : Z) (now : float) (fs : files) :
  SHARED_STATE_FILE fs = Doc (JObj d) ->
  assoc (u "conversations") d = Some (JArr cs) ->
  assoc (u "limit") a = Some (JInt z) ->
  (z <= 0)%Z ->
  handle_tool_call L (JStr (u "oracle_get_conversations")) (JObj a) now fs
  = (match skipn (Z.to_nat (- z)) cs with
     | [] => Ok NO_CONVERSATIONS
     | recent => lines <- format_entries L now recent ;; Ok (Py.join [Py.LF] lines)
     end, fs)
  /\ (z = 0%Z -> cs <> [] ->
      handle_tool_call L (JStr (u "oracle_get_conversations")) (JObj a) now fs
      = (lines <- format_entries L now cs ;; Ok (Py.join [Py.LF] lines), fs)).
Proof.
  intros Hf Hc Hl Hz.
  assert (E : handle_tool_call L (JStr (u "oracle_get_conversations")) (JObj a) now fs
              = (match skipn (Z.to_nat (- z)) cs with
                 | [] => Ok NO_CONVERSATIONS
                 | recent => lines <- format_entries L now recent ;; Ok (Py.join [Py.LF] lines)
                 end, fs)).
  { change (handle_tool_call L (JStr (u "oracle_get_conversations")) (JObj a) now fs)
      with (get_conversations L (JObj a) now fs, fs).
    f_equal. unfold get_conversations, read_shared_state. rewrite Hf.
    cbn [py_get bind]. rewrite Hc, Hl. cbn [negated_index bind].
    rewrite slice_from_nonneg by lia. reflexivity. }
  split; [exact E|].
  intros -> Hne. rewrite E. cbn [Z.opp Z.to_nat skipn].
  destruct cs; [congruence | reflexivity].
Qed.

Lemma limit_zero_or_negative_witness :
  let d := [(u "conversations",
             JArr [JObj [(u "timestamp", JFloat 1000); (u "user", JStr (u "hi"));
                         (u "oracle", JStr (u "hello"))]]);
            (u "status",
             JObj [(u "connected", JBool true); (u "agent_id", JStr (u "agent-1"));
                   (u "position", JObj [(u "x", JInt 3); (u "z", JInt 4)]);
                   (u "autonomous", JBool false); (u "last_active", JFloat 1000)])] in
  SHARED_STATE_FILE Sample.one_conversation = Doc (JObj d)
  /\ (0 <= 0)%Z
  /\ handle_tool_call Ref.lib (JStr (u "oracle_get_conversations"))
       (JObj [(u "limit", JInt 0)]) 1000 Sample.one_conversation
     = (Ok (u "[00:16:40] User: hi" ++ [Py.LF] ++ u "[00:16:40] Oracle: hello" ++ [Py.LF]),
        Sample.one_conversation).
Proof.
  intros d.
  assert (H0 : SHARED_STATE_FILE Sample.one_conversation = Doc (JObj d))
    by (vm_compute; reflexivity).
  assert (H1 : (0 <= 0)%Z) by lia.
  split; [exact H0 | split; [exact H1 |]].
  exact (proj1 (@limit_zero_or_negative Ref.lib [(u "limit", JInt 0)] d
                  [JObj [(u "timestamp", JFloat 1000); (u "user", JStr (u "hi"));
                         (u "oracle", JStr (u "hello"))]]
                  0%Z 1000 Sample.one_conversation H0 eq_refl eq_refl H1)).
Defined.

(** ** The conversation log *)

Lemma str_eqb_refl (a : str) : Py.str_eqb a a = true.
Proof. now apply str_eqb_eq. Qed.

Lemma assoc_dict_set_same k v d : assoc k (dict_set k v d) = Some v.
Proof.
  induction d as [|[k' v'] d IH]; simpl.
  - now rewrite str_eqb_refl.
  - destruct (Py.str_eqb k' k) eqn:E; simpl; [now rewrite str_eqb_refl | now rewrite E].
Qed.

Lemma assoc_dict_set_other k k' v d :
  Py.str_eqb k' k = false -> assoc k (dict_set k' v d) = assoc k d.
Proof.
  intros Hk. induction d as [|[k0 v0] d IH]; simpl.
  - now rewrite Hk.
  - destruct (Py.str_eqb k0 k') eqn:E; simpl.
    + apply str_eqb_eq in E. subst k0. now rewrite Hk.
    + now rewrite IH.
Qed.

Lemma slice_last_spec {A} (l : list A) :
  Py.slice_from (-50) l = skipn (List.length l - 50) l.
Proof.
  unfold Py.slice_from. cbn [Z.ltb Z.compare]. f_equal. lia.
Qed.

Lemma slice_last_length {A} (l : list A) : (List.length (Py.slice_from (-50) l) <= 50)%nat.
Proof. rewrite slice_last_spec, length_skipn. lia. Qed.

Lemma slice_last_short {A} (l : list A) :
  (List.length l <= 50)%nat -> Py.slice_from (-50) l = l.
Proof.
  intros H. rewrite slice_last_spec. replace (List.length l - 50)%nat with 0%nat by lia.
  reflexivity.
Qed.

Lemma slice_last_app {A} (x y : list A) :
  Py.slice_from (-50) (Py.slice_from (-50) x ++ y) = Py.slice_from (-50) (x ++ y).
Proof.
  rewrite !slice_last_spec.
  assert (E : skipn (List.length x - 50) x ++ y = skipn (List.length x - 50) (x ++ y)).
  { rewrite skipn_app. replace (List.length x - 50 - List.length x)%nat with 0%nat by lia.
    reflexivity. }
  rewrite E, skipn_skipn, length_skipn, !length_app. f_equal. lia.
Qed.

(** The entry that a turn appends. *)
Lemma updated_state_conversations user_msg oracle_reply t1 t2 state f v :
  updated_state user_msg oracle_reply t1 t2 state f = Ok v ->
  exists (d : list (str * json)) (cs : list json),
    v = JObj d
    /\ assoc (u "conversations") d
       = Some (JArr (Py.slice_from (-50)
                       (cs ++ [conversation_entry user_msg oracle_reply t1])))
    /\ assoc (u "status") d = Some (status_block state t2)
    /\ match f with
       | Absent => cs = []
       | Corrupt => False
       | Doc old => py_item old (u "conversations") = Ok (JArr cs)
       end.
Proof.
  unfold updated_state. intros H.
  destruct f as [| |old].
  - cbn in H. injection H as <-. eexists _, []. repeat split.
  - discriminate H.
  - cbn [bind] in H. destruct (py_item old (u "conversations")) as [convos|e] eqn:Ei;
      [cbn [bind] in H | discriminate H].
    destruct old as [| | | | | |d]; try discriminate H.
    destruct convos as [| | | | |cs|]; try discriminate H.
    injection H as <-. eexists _, cs. split; [reflexivity|]. split; [|split].
    + rewrite assoc_dict_set_other by reflexivity. apply assoc_dict_set_same.
    + apply assoc_dict_set_same.
    + reflexivity.
Qed.

Lemma log_step (t : turn) f cs :
  holds f cs ->
  holds (_log_conversation (turn_user t) (turn_reply t) (turn_t1 t) (turn_t2 t)
           (turn_state t) f)
        (Py.slice_from (-50) (cs ++ [entry_of t])).
Proof.
  intros [[-> ->] | [status ->]]; right; eexists; reflexivity.
Qed.

Lemma log_all_holds (turns : list turn) : forall f cs,
  holds f cs -> (List.length cs <= 50)%nat ->
  holds (log_all turns f) (Py.slice_from (-50) (cs ++ map entry_of turns)).
Proof.
  induction turns as [|t turns IH]; intros f cs Hf Hlen.
  - simpl. now rewrite app_nil_r, slice_last_short.
  - change (log_all (t :: turns) f)
      with (log_all turns (_log_conversation (turn_user t) (turn_reply t) (turn_t1 t)
                             (turn_t2 t) (turn_state t) f)).
    specialize (IH _ _ (log_step t Hf) (slice_last_length _)).
    rewrite slice_last_app, <- app_assoc in IH. exact IH.
Qed.

(** C5: every document that [_log_conversation] writes holds at most 50
    conversations; and sixty calls in a row, starting with no state file or
    with the empty state, leave exactly the last fifty entries, in the order
    of the calls. *)
Theorem conversations_bounded (turns : list turn) (f : file) :
  List.length turns = 60%nat ->
  f = Absent \/ f = Doc default_state ->
  (forall user_msg oracle_reply t1 t2 state f0 v,
     updated_state user_msg oracle_reply t1 t2 state f0 = Ok v ->
     exists cs, py_item v (u "conversations") = Ok (JArr cs) /\ (List.length cs <= 50)%nat)
  /\ exists status,
       log_all turns f
       = Doc (JObj [(u "conversations", JArr (map entry_of (skipn 10 turns)));
                    (u "status", status)])
       /\ List.length (map entry_of (skipn 10 turns)) = 50%nat.
Proof.
  intros Hlen Hf. split.
  - intros user_msg oracle_reply t1 t2 state f0 v Hv.
    destruct (updated_state_conversations _ _ _ _ _ _ Hv) as (d & cs & -> & Hc & _ & _).
    eexists. cbn [py_item]. rewrite Hc. split; [reflexivity | apply slice_last_length].
  - assert (Hh : holds f []).
    { destruct Hf as [-> | ->]; [left; auto | right; eexists; reflexivity]. }
    pose proof (@log_all_holds turns f [] Hh (Nat.le_0_l _)) as H.
    cbn [app] in H. rewrite slice_last_spec, length_map, Hlen in H.
    change (60 - 50)%nat with 10%nat in H. rewrite skipn_map in H.
    assert (Hl : List.length (map entry_of (skipn 10 turns)) = 50%nat).
    { rewrite length_map, length_skipn. lia. }
    destruct H as [[_ H] | [status H]].
    + rewrite H in Hl. discriminate Hl.
    + exists status. split; assumption.
Qed.

Lemma conversations_bounded_witness :
  List.length Sample.sixty_turns = 60%nat
  /\ (@Absent = Absent \/ Absent = Doc default_state)
  /\ exists status,
       log_all Sample.sixty_turns Absent
       = Doc (JObj [(u "conversations",
                     JArr (map entry_of (skipn 10 Sample.sixty_turns)));
                    (u "status", status)])
       /\ List.length (map entry_of (skipn 10 Sample.sixty_turns)) = 50%nat.
Proof.
  assert (H1 : List.length Sample.sixty_turns = 60%nat) by reflexivity.
  assert (H2 : @Absent = Absent \/ Absent = Doc default_state) by (left; reflexivity).
  split; [exact H1 | split; [exact H2 |]].
  exact (proj2 (@conversations_bounded Sample.sixty_turns Absent H1 H2)).
Defined.

(** * Further properties of the server *)

(** ** Requests and notifications *)

(** The methods [initialize], [tools/list] and [ping] are answered whether or
    not the request carries an id: without one the response has the id
    null. *)
Theorem answering_methods_ignore_id (L : PyLib) (d : list (str * json)) (m : str)
    (result : json) (w : world) :
  assoc (u "method") d = Some (JStr m) ->
  In (m, result) [(u "initialize", initialize_result);
                  (u "tools/list", JObj [(u "tools", TOOLS)]);
                  (u "ping", JObj [])] ->
  serve L (JObj d) w
  = write_stdout w (frame (json_dumps L (response (id_of d) result))).
Proof.
  intros Hm Hin. unfold serve, dispatch, py_get. rewrite Hm. fold (id_of d).
  destruct Hin as [E | [E | [E | []]]]; injection E as <- <-; reflexivity.
Qed.

Lemma answering_methods_ignore_id_witness :
  assoc (u "method") [(u "method", JStr (u "ping"))] = Some (JStr (u "ping"))
  /\ In (u "ping", JObj []) [(u "initialize", initialize_result);
                             (u "tools/list", JObj [(u "tools", TOOLS)]);
                             (u "ping", JObj [])]
  /\ serve Ref.lib (JObj [(u "method", JStr (u "ping"))]) (Sample.start [])
     = write_stdout (Sample.start [])
         (frame (uq "{'jsonrpc': '2.0', 'id': null, 'result': {}}")).
Proof.
  assert (H1 : assoc (u "method") [(u "method", JStr (u "ping"))] = Some (JStr (u "ping")))
    by reflexivity.
  assert (H2 : In (u "ping", JObj []) [(u "initialize", initialize_result);
                                       (u "tools/list", JObj [(u "tools", TOOLS)]);
                                       (u "ping", JObj [])])
    by (right; right; left; reflexivity).
  split; [exact H1 | split; [exact H2 |]].
  exact (@answering_methods_ignore_id Ref.lib [(u "method", JStr (u "ping"))] (u "ping")
           (JObj []) (Sample.start []) H1 H2).
Defined.

(** [notifications/initialized] is never answered, even when the request
    carries an id: the world stays as it is. *)
Theorem initialized_never_answered (L : PyLib) (d : list (str * json)) (w : world) :
  assoc (u "method") d = Some (JStr (u "notifications/initialized")) ->
  serve L (JObj d) w = w.
Proof.
  intros Hm. unfold serve, dispatch, py_get. rewrite Hm. reflexivity.
Qed.

Lemma initialized_never_answered_witness :
  assoc (u "method") [(u "id", JInt 3); (u "method", JStr (u "notifications/initialized"))]
  = Some (JStr (u "notifications/initialized"))
  /\ serve Ref.lib
       (JObj [(u "id", JInt 3); (u "method", JStr (u "notifications/initialized"))])
       (Sample.start [])
     = Sample.start [].
Proof.
  split; [reflexivity|].
  exact (@initialized_never_answered Ref.lib
           [(u "id", JInt 3); (u "method", JStr (u "notifications/initialized"))]
           (Sample.start []) eq_refl).
Defined.

(** A message that is valid JSON but not an object (a list, a number, a
    text, null) gets no response: [msg.get] raises [AttributeError], which is
    reported on the error stream. *)
Theorem non_object_message_unanswered (L : PyLib) (msg : json) (w : world) :
  (forall d, msg <> JObj d) ->
  serve L msg w = write_stderr w AttributeError.
Proof.
  intros H. destruct msg; try reflexivity. now elim (H fields).
Qed.

Lemma non_object_message_unanswered_witness :
  (forall d, JArr [JInt 1] <> JObj d)
  /\ serve Ref.lib (JArr [JInt 1]) (Sample.start [])
     = write_stderr (Sample.start []) AttributeError.
Proof.
  assert (H : forall d, JArr [JInt 1] <> JObj d) by (intros d; discriminate).
  split; [exact H|].
  exact (@non_object_message_unanswered Ref.lib (JArr [JInt 1]) (Sample.start []) H).
Defined.

(** ** What the tools do to the files *)

(** No tool call changes the state file; and the queue file changes only in
    a call of [oracle_send_message] that returns its confirmation. *)
Theorem tools_keep_state_file (L : PyLib) (name arguments : json) (now : float)
    (fs : files) :
  SHARED_STATE_FILE (snd (handle_tool_call L name arguments now fs)) = SHARED_STATE_FILE fs
  /\ (PENDING_MESSAGES_FILE (snd (handle_tool_call L name arguments now fs))
      <> PENDING_MESSAGES_FILE fs ->
      name = JStr (u "oracle_send_message")
      /\ exists message,
           fst (handle_tool_call L name arguments now fs)
           = Ok (u "Message queued for Oracle: " ++ message)).
Proof.
  unfold handle_tool_call.
  destruct (eq_str name (u "oracle_get_conversations")); [split; [reflexivity | intros H; now elim H]|].
  destruct (eq_str name (u "oracle_get_status")); [split; [reflexivity | intros H; now elim H]|].
  destruct (eq_str name (u "oracle_send_message")) eqn:En;
    [|split; [reflexivity | intros H; now elim H]].
  assert (Hn : name = JStr (u "oracle_send_message")).
  { destruct name; try discriminate En. simpl in En. apply str_eqb_eq in En. now subst. }
  unfold send_message.
  destruct (py_get arguments (u "message") (JStr [])) as [message|e];
    [|split; [reflexivity | intros H; now elim H]].
  destruct (negb (truthy message)); [split; [reflexivity | intros H; now elim H]|].
  destruct (PENDING_MESSAGES_FILE fs) as [| |[| | | | |q|]] eqn:Ep; cbn [snd fst];
    try (split; [reflexivity | intros H; now elim H]);
    (split; [reflexivity | intros _; split; [exact Hn | eexists; reflexivity]]).
Qed.

(** A name outside the three tools is answered with the text "Unknown tool: "
    and the name, whatever the arguments are, and no file changes. *)
Theorem unknown_tool_named (L : PyLib) (name : str) (arguments : json) (now : float)
    (fs : files) :
  existsb (Py.str_eqb name)
    [u "oracle_get_conversations"; u "oracle_get_status"; u "oracle_send_message"] = false ->
  handle_tool_call L (JStr name) arguments now fs = (Ok (u "Unknown tool: " ++ name), fs).
Proof.
  intros H. cbn [existsb] in H.
  apply orb_false_elim in H as [H1 H]. apply orb_false_elim in H as [H2 H].
  apply orb_false_elim in H as [H3 _].
  unfold handle_tool_call. cbn [eq_str]. rewrite H1, H2, H3. reflexivity.
Qed.

Lemma unknown_tool_named_witness :
  existsb (Py.str_eqb (u "oracle_reset"))
    [u "oracle_get_conversations"; u "oracle_get_status"; u "oracle_send_message"] = false
  /\ handle_tool_call Ref.lib (JStr (u "oracle_reset")) JNull 1000 Sample.no_files
     = (Ok (u "Unknown tool: oracle_reset"), Sample.no_files).
Proof.
  split; [reflexivity|].
  exact (@unknown_tool_named Ref.lib (u "oracle_reset") JNull 1000 Sample.no_files eq_refl).
Defined.

(** When the queue file holds a JSON document that is not a list,
    [oracle_send_message] raises [AttributeError] (the document has no
    [append]) and the file stays as it is. *)
Theorem send_message_on_foreign_queue (L : PyLib) (a : list (str * json))
    (message v : json) (now : float) (fs : files) :
  assoc (u "message") a = Some message -> truthy message = true ->
  PENDING_MESSAGES_FILE fs = Doc v -> (forall q, v <> JArr q) ->
  handle_tool_call L (JStr (u "oracle_send_message")) (JObj a) now fs
  = (Raise AttributeError, fs).
Proof.
  intros Hm Ht Hp Hv.
  change (handle_tool_call L (JStr (u "oracle_send_message")) (JObj a) now fs)
    with (send_message L (JObj a) now fs).
  unfold send_message, py_get. rewrite Hm, Ht, Hp. cbn [negb].
  destruct v; try reflexivity. now elim (Hv items).
Qed.

Lemma send_message_on_foreign_queue_witness :
  let fs := mkFiles Absent (Doc (JObj [])) in
  assoc (u "message") [(u "message", JStr (u "hello"))] = Some (JStr (u "hello"))
  /\ truthy (JStr (u "hello")) = true
  /\ (forall q, JObj [] <> JArr q)
  /\ handle_tool_call Ref.lib (JStr (u "oracle_send_message"))
       (JObj [(u "message", JStr (u "hello"))]) 1000 fs
     = (Raise AttributeError, fs).
Proof.
  intros fs.
  assert (H : forall q, JObj [] <> JArr q) by (intros q; discriminate).
  split; [reflexivity | split; [reflexivity | split; [exact H |]]].
  exact (@send_message_on_foreign_queue Ref.lib [(u "message", JStr (u "hello"))]
           (JStr (u "hello")) (JObj []) 1000 fs eq_refl eq_refl eq_refl H).
Defined.

Lemma tools_keep_state_file_witness :
  PENDING_MESSAGES_FILE
    (snd (handle_tool_call Ref.lib (JStr (u "oracle_send_message"))
            (JObj [(u "message", JStr (u "hello"))]) 1000 Sample.no_files))
  <> PENDING_MESSAGES_FILE Sample.no_files
  /\ (JStr (u "oracle_send_message") = JStr (u "oracle_send_message")
      /\ exists message,
           fst (handle_tool_call Ref.lib (JStr (u "oracle_send_message"))
                  (JObj [(u "message", JStr (u "hello"))]) 1000 Sample.no_files)
           = Ok (u "Message queued for Oracle: " ++ message)).
Proof.
  assert (H : PENDING_MESSAGES_FILE
                (snd (handle_tool_call Ref.lib (JStr (u "oracle_send_message"))
                        (JObj [(u "message", JStr (u "hello"))]) 1000 Sample.no_files))
              <> PENDING_MESSAGES_FILE Sample.no_files)
    by (vm_compute; discriminate).
  split; [exact H|].
  exact (proj2 (@tools_keep_state_file Ref.lib (JStr (u "oracle_send_message"))
                  (JObj [(u "message", JStr (u "hello"))]) 1000 Sample.no_files) H).
Defined.

(** ** The loop as a whole *)

Section Loop.

Variable L : PyLib.

Lemma readline_split inp : fst (Py.readline inp) ++ snd (Py.readline inp) = inp.
Proof.
  induction inp as [|c r IH]; simpl; [reflexivity|].
  destruct (c =? Py.LF)%N; [reflexivity|].
  destruct (Py.readline r) as [l r']. simpl in *. now rewrite IH.
Qed.

Lemma read_header_loop_shorter fuel : forall header inp h r,
  read_header_loop fuel header inp = Some (h, r) ->
  (List.length r < List.length inp)%nat.
Proof.
  induction fuel as [|f IH]; intros header inp h r H; [discriminate H|].
  cbn [read_header_loop] in H.
  pose proof (readline_split inp) as Hs.
  destruct (Py.readline inp) as [line rest]. cbn [fst snd] in Hs.
  destruct line as [|c line]; [discriminate H|].
  assert (Hl : (List.length rest < List.length inp)%nat).
  { rewrite <- Hs. rewrite length_app. simpl. lia. }
  destruct (_ || _).
  - injection H as _ <-. exact Hl.
  - apply IH in H. lia.
Qed.

Lemma read_no_longer n inp : (List.length (snd (Py.read n inp)) <= List.length inp)%nat.
Proof.
  unfold Py.read. destruct (n <? 0)%Z; cbn [snd]; [simpl; lia|].
  rewrite length_skipn. lia.
Qed.

(** Every frame read takes at least one character of the input. *)
Lemma receive_shorter inp :
  match receive L inp with
  | Eof => True
  | Skipped r | Failed _ r | Message _ r => (List.length r < List.length inp)%nat
  end.
Proof.
  unfold receive, read_header.
  destruct (read_header_loop _ _ _) as [[h r]|] eqn:Eh; [|exact I].
  apply read_header_loop_shorter in Eh.
  destruct (parse_content_length h) as [n|e]; [|exact Eh].
  destruct (n =? 0)%Z; [exact Eh|].
  pose proof (read_no_longer n r) as Hr.
  destruct (Py.read n r) as [body r2]. cbn [snd] in Hr.
  destruct (json_loads L body); lia.
Qed.

Lemma on_exception_stdin e w : stdin (on_exception e w) = stdin w.
Proof. destruct e; reflexivity. Qed.

Lemma dispatch_stdin msg w : stdin (snd (dispatch L msg w)) = stdin w.
Proof.
  unfold dispatch.
  repeat match goal with
         | |- context [match ?x with _ => _ end] => destruct x
         end; reflexivity.
Qed.

Lemma serve_stdin msg w : stdin (serve L msg w) = stdin w.
Proof.
  unfold serve. pose proof (dispatch_stdin msg w) as H.
  destruct (dispatch L msg w) as [[?|e] w']; cbn [snd] in H; [exact H|].
  now rewrite on_exception_stdin.
Qed.

Lemma iteration_shorter w w' :
  iteration L w = Continue w' -> (List.length (stdin w') < List.length (stdin w))%nat.
Proof.
  unfold iteration. pose proof (receive_shorter (stdin w)) as H.
  destruct (receive L (stdin w)) as [|r|e r|msg r]; intros E; try discriminate E;
    injection E as <-.
  - exact H.
  - now rewrite on_exception_stdin.
  - now rewrite serve_stdin.
Qed.

Lemma main_returns_within fuel : forall w,
  (List.length (stdin w) < fuel)%nat -> exists w', main L fuel w = Some w' /\ stdin w' = [].
Proof.
  induction fuel as [|f IH]; intros w Hw; [lia|].
  cbn [main]. destruct (iteration L w) as [w1|w1] eqn:Ei.
  - exists w1. split; [reflexivity|].
    unfold iteration in Ei. destruct (receive L (stdin w)); try discriminate Ei.
    now injection Ei as <-.
  - apply iteration_shorter in Ei. apply IH. lia.
Qed.

End Loop.

(** [main] returns on every input: the loop reaches the end of the input
    after at most one turn per character, and has then read all of it. *)
Theorem main_returns (L : PyLib) (w : world) :
  exists w', main L (S (List.length (stdin w))) w = Some w' /\ stdin w' = [].
Proof. apply main_returns_within. lia. Qed.

Section Sequence.

Variable L : PyLib.

Lemma dispatch_with_stdin msg w r :
  dispatch L msg (with_stdin w r)
  = (fst (dispatch L msg w), with_stdin (snd (dispatch L msg w)) r).
Proof.
  unfold dispatch.
  change (clock (with_stdin w r)) with (clock w).
  change (tick (with_stdin w r)) with (tick w).
  change (disk (with_stdin w r)) with (disk w).
  repeat match goal with
         | |- context [match ?x with _ => _ end] => destruct x
         end; reflexivity.
Qed.

Lemma on_exception_with_stdin e w r :
  on_exception e (with_stdin w r) = with_stdin (on_exception e w) r.
Proof. destruct e; reflexivity. Qed.

Lemma serve_with_stdin msg w r :
  serve L msg (with_stdin w r) = with_stdin (serve L msg w) r.
Proof.
  unfold serve. rewrite dispatch_with_stdin.
  destruct (dispatch L msg w) as [[?|e] w']; cbn [fst snd]; [reflexivity|].
  apply on_exception_with_stdin.
Qed.

Lemma serve_all_with_stdin (frames : list (str * json)) : forall w r,
  fold_left (fun w bm => serve L (snd bm) w) frames (with_stdin w r)
  = with_stdin (fold_left (fun w bm => serve L (snd bm) w) frames w) r.
Proof.
  induction frames as [|bm frames IH]; intros w r; [reflexivity|].
  cbn [fold_left]. now rewrite serve_with_stdin, IH.
Qed.

End Sequence.

(** The loop is sequential: on an input made of frames, each written with
    the character count of a body that decodes, [main] serves the messages
    one after the other, in the order of the frames, and returns. *)
Theorem main_serves_in_order (L : PyLib) (frames : list (str * json)) (fuel : nat) :
  forall w : world,
  Forall (fun bm => fst bm <> [] /\ json_loads L (fst bm) = Some (snd bm)) frames ->
  stdin w = List.concat (map (fun bm => frame (fst bm)) frames) ->
  (List.length frames < fuel)%nat ->
  main L fuel w
  = Some (with_stdin (fold_left (fun w bm => serve L (snd bm) w) frames w) []).
Proof.
  revert fuel. induction frames as [|[body msg] frames IH]; intros fuel w Hall Hin Hfuel.
  - destruct fuel as [|f]; [simpl in Hfuel; lia|].
    cbn [main]. unfold iteration. simpl in Hin. rewrite Hin. reflexivity.
  - destruct fuel as [|f]; [simpl in Hfuel; lia|].
    inversion Hall as [|? ? [Hne Hm] Hrest]; subst. cbn [fst snd] in Hne, Hm.
    cbn [map List.concat fst] in Hin.
    cbn [main]. rewrite (@iteration_frame L w body msg _ Hin Hne Hm).
    rewrite IH; [| exact Hrest | now rewrite serve_stdin | simpl in Hfuel; lia].
    cbn [fold_left snd]. rewrite serve_with_stdin, serve_all_with_stdin. reflexivity.
Qed.

Lemma main_serves_in_order_witness :
  let frames := [(Sample.ping1_body, Sample.ping 1); (Sample.ping2_body, Sample.ping 2)] in
  let w := Sample.start (List.concat (map (fun bm => frame (fst bm)) frames)) in
  Forall (fun bm => fst bm <> [] /\ json_loads Ref.lib (fst bm) = Some (snd bm)) frames
  /\ (List.length frames < 3)%nat
  /\ main Ref.lib 3 w
     = Some (with_stdin
               (fold_left (fun w bm => serve Ref.lib (snd bm) w) frames w) []).
Proof.
  intros frames w.
  assert (H1 : Forall (fun bm => fst bm <> [] /\ json_loads Ref.lib (fst bm) = Some (snd bm))
                      frames).
  { repeat constructor; try (vm_compute; discriminate); vm_compute; reflexivity. }
  assert (H2 : (List.length frames < 3)%nat) by (simpl; lia).
  split; [exact H1 | split; [exact H2 |]].
  exact (@main_serves_in_order Ref.lib frames 3 w H1 eq_refl H2).
Defined.

(** ** Reading back what the collaborator logged *)

Lemma slice_from_neg {A} (n : Z) (l : list A) :
  (0 < n)%Z -> Py.slice_from (- n) l = skipn (List.length l - Z.to_nat n) l.
Proof.
  intros Hn. unfold Py.slice_from.
  destruct (Z.ltb_spec (- n) 0) as [_|]; [|lia]. f_equal. lia.
Qed.

Lemma limit_selects_last_aux (L : PyLib) (a d : list (str * json)) (cs : list json)
    (n : Z) (now : float) (fs : files) :
  SHARED_STATE_FILE fs = Doc (JObj d) ->
  assoc (u "conversations") d = Some (JArr cs) ->
  (assoc (u "limit") a = Some (JInt n) \/ assoc (u "limit") a = None /\ n = 10%Z) ->
  (0 < n)%Z ->
  handle_tool_call L (JStr (u "oracle_get_conversations")) (JObj a) now fs
  = (match skipn (List.length cs - Z.to_nat n) cs with
     | [] => Ok NO_CONVERSATIONS
     | recent => lines <- format_entries L now recent ;; Ok (Py.join [Py.LF] lines)
     end, fs).
Proof.
  intros Hf Hc Hl Hn.
  change (handle_tool_call L (JStr (u "oracle_get_conversations")) (JObj a) now fs)
    with (get_conversations L (JObj a) now fs, fs).
  f_equal. unfold get_conversations, read_shared_state. rewrite Hf.
  cbn [py_get bind]. rewrite Hc.
  destruct Hl as [-> | [-> ->]]; cbn [negated_index bind];
    rewrite slice_from_neg by lia; reflexivity.
Qed.

(** A positive limit [n] selects the last [n] stored conversations, all of
    them when there are fewer; without a limit the last 10 are selected. *)
Theorem limit_selects_last (L : PyLib) (a d : list (str * json)) (cs : list json)
    (n : Z) (now : float) (fs : files) :
  SHARED_STATE_FILE fs = Doc (JObj d) ->
  assoc (u "conversations") d = Some (JArr cs) ->
  (assoc (u "limit") a = Some (JInt n) \/ assoc (u "limit") a = None /\ n = 10%Z) ->
  (0 < n)%Z ->
  handle_tool_call L (JStr (u "oracle_get_conversations")) (JObj a) now fs
  = (match skipn (List.length cs - Z.to_nat n) cs with
     | [] => Ok NO_CONVERSATIONS
     | recent => lines <- format_entries L now recent ;; Ok (Py.join [Py.LF] lines)
     end, fs).
Proof.
  intros Hf Hc Hl Hn.
  change (handle_tool_call L (JStr (u "oracle_get_conversations")) (JObj a) now fs)
    with (get_conversations L (JObj a) now fs, fs).
  f_equal. unfold get_conversations, read_shared_state. rewrite Hf.
  cbn [py_get bind]. rewrite Hc.
  destruct Hl as [-> | [-> ->]]; cbn [negated_index bind];
    rewrite slice_from_neg by lia; reflexivity.
Qed.

Lemma limit_selects_last_witness :
  let c1 := conversation_entry (u "a") (u "b") 60 in
  let c2 := conversation_entry (u "c") (u "d") 120 in
  let d := [(u "conversations", JArr [c1; c2]); (u "status", JObj [])] in
  let fs := mkFiles (Doc (JObj d)) Absent in
  (assoc (u "limit") [(u "limit", JInt 1)] = Some (JInt 1)
   \/ assoc (u "limit") [(u "limit", JInt 1)] = None /\ 1%Z = 10%Z)
  /\ (0 < 1)%Z
  /\ handle_tool_call Ref.lib (JStr (u "oracle_get_conversations"))
       (JObj [(u "limit", JInt 1)]) 1000 fs
     = (Ok (u "[00:02:00] User: c" ++ [Py.LF] ++ u "[00:02:00] Oracle: d" ++ [Py.LF]), fs).
Proof.
  intros c1 c2 d fs.
  assert (H1 : assoc (u "limit") [(u "limit", JInt 1)] = Some (JInt 1)
               \/ assoc (u "limit") [(u "limit", JInt 1)] = None /\ 1%Z = 10%Z)
    by (left; reflexivity).
  assert (H2 : (0 < 1)%Z) by lia.
  split; [exact H1 | split; [exact H2 |]].
  exact (@limit_selects_last Ref.lib [(u "limit", JInt 1)] d [c1; c2] 1 1000 fs
           eq_refl eq_refl H1 H2).
Defined.

Lemma last_of_slice (x : list json) (e : json) :
  skipn (List.length (Py.slice_from (-50) (x ++ [e])) - Z.to_nat 1)
        (Py.slice_from (-50) (x ++ [e])) = [e].
Proof.
  rewrite slice_last_spec, skipn_skipn, length_skipn, length_app.
  cbn [List.length]. change (Z.to_nat 1) with 1%nat.
  replace (Nat.add _ _) with (List.length x) by lia.
  rewrite skipn_app, Nat.sub_diag, skipn_all. reflexivity.
Qed.

Lemma format_logged_entry (L : PyLib) now user_msg oracle_reply t1 ts :
  local_hms L (JFloat t1) = Some ts ->
  format_entries L now [conversation_entry user_msg oracle_reply t1]
  = Ok [u "[" ++ ts ++ u "] User: " ++ user_msg;
        u "[" ++ ts ++ u "] Oracle: " ++ oracle_reply; []].
Proof.
  intros Hts. unfold format_entries, format_entry, conversation_entry, hms.
  cbn [py_get py_item assoc bind].
  replace (Py.str_eqb (u "timestamp") (u "timestamp")) with true by reflexivity.
  replace (Py.str_eqb (u "timestamp") (u "user")) with false by reflexivity.
  replace (Py.str_eqb (u "user") (u "user")) with true by reflexivity.
  replace (Py.str_eqb (u "timestamp") (u "oracle")) with false by reflexivity.
  replace (Py.str_eqb (u "user") (u "oracle")) with false by reflexivity.
  replace (Py.str_eqb (u "oracle") (u "oracle")) with true by reflexivity.
  cbn [bind]. rewrite Hts. reflexivity.
Qed.

(** What the collaborator logs, the server reads back: after
    [_log_conversation] on a missing state file or on a document with the two
    keys, [oracle_get_conversations] with limit 1 returns the two lines of
    that turn, stamped with the local time of its first clock reading. *)
Theorem logged_turn_read_back (L : PyLib) (user_msg oracle_reply ts : str)
    (t1 t2 now : float) (state : OracleState) (f pending : file) (cs : list json) :
  holds f cs ->
  local_hms L (JFloat t1) = Some ts ->
  handle_tool_call L (JStr (u "oracle_get_conversations")) (JObj [(u "limit", JInt 1)]) now
    (mkFiles (_log_conversation user_msg oracle_reply t1 t2 state f) pending)
  = (Ok (u "[" ++ ts ++ u "] User: " ++ user_msg ++ [Py.LF]
         ++ u "[" ++ ts ++ u "] Oracle: " ++ oracle_reply ++ [Py.LF]),
     mkFiles (_log_conversation user_msg oracle_reply t1 t2 state f) pending).
Proof.
  intros Hh Hts.
  pose proof (@log_step (mkTurn user_msg oracle_reply t1 t2 state) f cs Hh) as H.
  cbn [turn_user turn_reply turn_t1 turn_t2 turn_state] in H.
  destruct H as [[_ H] | [status H]].
  - exfalso. rewrite slice_last_spec in H.
    apply (f_equal (@List.length json)) in H.
    rewrite length_skipn, length_app in H. simpl in H. lia.
  - rewrite H.
    set (x := Py.slice_from (-50)
                (cs ++ [entry_of (mkTurn user_msg oracle_reply t1 t2 state)])).
    rewrite (@limit_selects_last_aux L [(u "limit", JInt 1)]
               [(u "conversations", JArr x); (u "status", status)] x 1 now
               (mkFiles (Doc (JObj [(u "conversations", JArr x); (u "status", status)]))
                        pending)
               eq_refl eq_refl (or_introl eq_refl)) by lia.
    f_equal. unfold x. rewrite last_of_slice.
    unfold entry_of. cbn [turn_user turn_reply turn_t1].
    rewrite (@format_logged_entry L now user_msg oracle_reply t1 ts Hts).
    cbn [bind Py.join]. rewrite <- !app_assoc. reflexivity.
Qed.

Lemma logged_turn_read_back_witness :
  holds Absent []
  /\ local_hms Ref.lib (JFloat 1000) = Some (u "00:16:40")
  /\ handle_tool_call Ref.lib (JStr (u "oracle_get_conversations"))
       (JObj [(u "limit", JInt 1)]) 2000
       (mkFiles (_log_conversation (u "hi") (u "hello") 1000 1000 Sample.bot Absent) Absent)
     = (Ok (u "[" ++ u "00:16:40" ++ u "] User: " ++ u "hi" ++ [Py.LF]
            ++ u "[" ++ u "00:16:40" ++ u "] Oracle: " ++ u "hello" ++ [Py.LF]),
        mkFiles (_log_conversation (u "hi") (u "hello") 1000 1000 Sample.bot Absent) Absent).
Proof.
  assert (H1 : holds Absent []) by (left; split; reflexivity).
  assert (H2 : local_hms Ref.lib (JFloat 1000) = Some (u "00:16:40")) by reflexivity.
  split; [exact H1 | split; [exact H2 |]].
  exact (@logged_turn_read_back Ref.lib (u "hi") (u "hello") (u "00:16:40") 1000 1000 2000
           Sample.bot Absent Absent [] H1 H2).
Defined.

(** After [_log_conversation], a status report asked for less than 60
    seconds after the second clock reading of that call shows the state of
    the bot at the call and ends in "Alive: yes". *)
Theorem logged_status_reported (L : PyLib) (user_msg oracle_reply : str)
    (t1 t2 now : float) (state : OracleState) (f pending : file) (cs : list json) :
  holds f cs ->
  PrimFloat.eqb t2 0 = false ->
  PrimFloat.ltb (PrimFloat.sub now t2) float_60 = true ->
  handle_tool_call L (JStr (u "oracle_get_status")) (JObj []) now
    (mkFiles (_log_conversation user_msg oracle_reply t1 t2 state f) pending)
  = (Ok (u "Connected to The Grid: " ++ py_str L (JBool (connected state)) ++ [Py.LF]
         ++ u "Agent ID: " ++ py_str L (agent_id state) ++ [Py.LF]
         ++ u "Position: " ++ py_str L (position state) ++ [Py.LF]
         ++ u "Autonomous mode: " ++ py_str L (JBool (autonomous state)) ++ [Py.LF]
         ++ u "Alive: " ++ u "yes"),
     mkFiles (_log_conversation user_msg oracle_reply t1 t2 state f) pending).
Proof.
  intros Hh Hnz Hlt.
  change (handle_tool_call L (JStr (u "oracle_get_status")) (JObj []) now ?fs)
    with (get_status L now
            (mkFiles (_log_conversation user_msg oracle_reply t1 t2 state f) pending),
          mkFiles (_log_conversation user_msg oracle_reply t1 t2 state f) pending).
  f_equal.
  assert (E : exists x, _log_conversation user_msg oracle_reply t1 t2 state f
                        = Doc (JObj [(u "conversations", x);
                                     (u "status", status_block state t2)])).
  { destruct Hh as [[-> ->] | [status ->]]; eexists; reflexivity. }
  destruct E as [x ->].
  unfold get_status, read_shared_state, status_block.
  cbn [SHARED_STATE_FILE py_get bind assoc truthy negb].
  replace (Py.str_eqb (u "conversations") (u "status")) with false by reflexivity.
  replace (Py.str_eqb (u "status") (u "status")) with true by reflexivity.
  cbn [truthy negb bind assoc].
  change (py_get _ (u "last_active") (JInt 0)) with (Ok (JFloat t2)).
  change (py_get _ (u "connected") (JBool false)) with (Ok (JBool (connected state))).
  change (py_get _ (u "agent_id") (JStr (u "N/A"))) with (Ok (agent_id state)).
  change (py_get _ (u "position") (JStr (u "N/A"))) with (Ok (position state)).
  change (py_get _ (u "autonomous") (JBool false)) with (Ok (JBool (autonomous state))).
  cbn [bind]. unfold age. cbn [truthy]. rewrite Hnz. cbn [negb bind].
  unfold alive_text. rewrite Hlt. reflexivity.
Qed.

Lemma logged_status_reported_witness :
  holds Absent []
  /\ PrimFloat.eqb 1000 0 = false
  /\ PrimFloat.ltb (PrimFloat.sub 1030 1000) float_60 = true
  /\ handle_tool_call Ref.lib (JStr (u "oracle_get_status")) (JObj []) 1030
       (mkFiles (_log_conversation (u "hi") (u "hello") 1000 1000 Sample.bot Absent) Absent)
     = (Ok (u "Connected to The Grid: True" ++ [Py.LF]
            ++ u "Agent ID: agent-1" ++ [Py.LF]
            ++ u "Position: {'x': 3, 'z': 4}" ++ [Py.LF]
            ++ u "Autonomous mode: False" ++ [Py.LF]
            ++ u "Alive: yes"),
        mkFiles (_log_conversation (u "hi") (u "hello") 1000 1000 Sample.bot Absent) Absent).
Proof.
  assert (H1 : holds Absent []) by (left; split; reflexivity).
  assert (H2 : PrimFloat.eqb 1000 0 = false) by reflexivity.
  assert (H3 : PrimFloat.ltb (PrimFloat.sub 1030 1000) float_60 = true) by reflexivity.
  split; [exact H1 | split; [exact H2 | split; [exact H3 |]]].
  exact (@logged_status_reported Ref.lib (u "hi") (u "hello") 1000 1000 1030 Sample.bot
           Absent Absent [] H1 H2 H3).
Defined.

(** [_log_conversation] rewrites the two keys it owns and keeps every other
    key of the state document with its value. *)
Theorem log_keeps_other_keys (user_msg oracle_reply : str) (t1 t2 : float)
    (state : OracleState) (d : list (str * json)) (v : json) :
  updated_state user_msg oracle_reply t1 t2 state (Doc (JObj d)) = Ok v ->
  exists d', v = JObj d'
    /\ forall k, Py.str_eqb (u "conversations") k = false ->
                 Py.str_eqb (u "status") k = false ->
                 assoc k d' = assoc k d.
Proof.
  unfold updated_state. cbn [bind py_item].
  destruct (assoc (u "conversations") d) as [convos|]; [|discriminate].
  cbn [bind]. destruct convos; try discriminate.
  intros H. injection H as <-. eexists. split; [reflexivity|].
  intros k Hc Hs. now rewrite !assoc_dict_set_other.
Qed.

Lemma log_keeps_other_keys_witness :
  let d := [(u "conversations", JArr []); (u "owner", JStr (u "me")); (u "status", JObj [])] in
  exists v,
    updated_state (u "hi") (u "hello") 1000 1000 Sample.bot (Doc (JObj d)) = Ok v
    /\ exists d', v = JObj d'
         /\ forall k, Py.str_eqb (u "conversations") k = false ->
                      Py.str_eqb (u "status") k = false ->
                      assoc k d' = assoc k d.
Proof.
  intros d. eexists. split; [reflexivity|].
  exact (@log_keeps_other_keys (u "hi") (u "hello") 1000 1000 Sample.bot d _ eq_refl).
Defined.

(** ** The polling cycle of the collaborator *)




(** ** Commands of the collaborator *)



(** ** The action decoded from a reply *)

Lemma find_char_absent c s : Forall (fun x => (x =? c)%N = false) s -> find_char c s = (-1)%Z.
Proof.
  induction 1 as [|x s Hx _ IH]; cbn [find_char]; [reflexivity|].
  now rewrite Hx, IH.
Qed.

Lemma find_char_nonneg c s : (-1 <= find_char c s)%Z.
Proof.
  induction s as [|x s IH]; cbn [find_char]; [lia|].
  destruct (x =? c)%N; [lia|]. destruct (Z.ltb_spec (find_char c s) 0); lia.
Qed.

Lemma find_char_first c pre rest :
  Forall (fun x => (x =? c)%N = false) pre ->
  find_char c (pre ++ c :: rest) = Z.of_nat (List.length pre).
Proof.
  induction 1 as [|x pre Hx _ IH]; cbn [find_char app List.length].
  - now rewrite N.eqb_refl.
  - rewrite Hx, IH. destruct (Z.ltb_spec (Z.of_nat (List.length pre)) 0); lia.
Qed.

Lemma rfind_char_last c pre post :
  Forall (fun x => (x =? c)%N = false) post ->
  rfind_char c (pre ++ c :: post) = Z.of_nat (List.length pre).
Proof.
  intros Hp. unfold rfind_char.
  rewrite rev_app_distr. cbn [rev]. rewrite <- app_assoc. cbn [app].
  rewrite find_char_first by (apply Forall_rev; exact Hp).
  rewrite length_rev, length_app. cbn [List.length].
  destruct (Z.ltb_spec (Z.of_nat (List.length post)) 0); lia.
Qed.

Lemma rfind_char_absent c s :
  Forall (fun x => (x =? c)%N = false) s -> rfind_char c s = (-1)%Z.
Proof.
  intros H. unfold rfind_char. rewrite find_char_absent by (apply Forall_rev; exact H).
  reflexivity.
Qed.

(** The action is decoded from the text between the first opening brace and
    the last closing brace of the reply, whatever surrounds it; a span that
    does not decode gives the action [IDLE]. *)
Theorem action_span (L : PyLib) (pre mid post : str) :
  Forall (fun x => (x =? 123)%N = false) pre ->
  Forall (fun x => (x =? 125)%N = false) post ->
  parse_action L (pre ++ [123%N] ++ mid ++ [125%N] ++ post)
  = match json_loads L ([123%N] ++ mid ++ [125%N]) with
    | Some action => action
    | None => IDLE
    end.
Proof.
  intros Hpre Hpost. unfold parse_action.
  assert (E1 : find_char 123 (pre ++ [123%N] ++ mid ++ [125%N] ++ post)
               = Z.of_nat (List.length pre)) by (apply find_char_first; exact Hpre).
  assert (E2 : rfind_char 125 (pre ++ [123%N] ++ mid ++ [125%N] ++ post)
               = Z.of_nat (List.length (pre ++ [123%N] ++ mid))).
  { replace (pre ++ [123%N] ++ mid ++ [125%N] ++ post)
      with ((pre ++ [123%N] ++ mid) ++ 125%N :: post)
      by (rewrite <- !app_assoc; reflexivity).
    apply rfind_char_last. exact Hpost. }
  rewrite E1, E2. rewrite !length_app. cbn [List.length].
  destruct (Z.leb_spec 0 (Z.of_nat (List.length pre))); [|lia].
  destruct (Z.ltb_spec (Z.of_nat (List.length pre))
              (Z.of_nat (List.length pre + (1 + List.length mid)) + 1)); [|lia].
  cbn [andb].
  assert (E3 : slice_between (Z.of_nat (List.length pre))
                 (Z.of_nat (List.length pre + (1 + List.length mid)) + 1)
                 (pre ++ [123%N] ++ mid ++ [125%N] ++ post)
               = [123%N] ++ mid ++ [125%N]).
  { unfold slice_between.
    rewrite Nat2Z.id, skipn_app, Nat.sub_diag, skipn_all. cbn [app skipn].
    replace (Z.to_nat _) with (List.length (123%N :: mid ++ [125%N]))
      by (cbn [List.length]; rewrite length_app; cbn [List.length]; lia).
    change (123%N :: mid ++ 125%N :: post) with ((123%N :: mid) ++ [125%N] ++ post).
    rewrite app_assoc. change ((123%N :: mid) ++ [125%N]) with (123%N :: mid ++ [125%N]).
    rewrite firstn_app, Nat.sub_diag, firstn_all. cbn [firstn]. now rewrite app_nil_r. }
  rewrite E3. reflexivity.
Qed.

Lemma action_span_witness :
  Forall (fun x => (x =? 123)%N = false) (u "Sure: ")
  /\ Forall (fun x => (x =? 125)%N = false) (u " ok?")
  /\ parse_action Ref.lib
       (u "Sure: " ++ [123%N] ++ uq "'action': 'MOVE', 'x': 10, 'z': -5" ++ [125%N] ++ u " ok?")
     = JObj [(u "action", JStr (u "MOVE")); (u "x", JInt 10); (u "z", JInt (-5))].
Proof.
  assert (H1 : Forall (fun x => (x =? 123)%N = false) (u "Sure: "))
    by (vm_compute; repeat constructor).
  assert (H2 : Forall (fun x => (x =? 125)%N = false) (u " ok?"))
    by (vm_compute; repeat constructor).
  split; [exact H1 | split; [exact H2 |]].
  exact (@action_span Ref.lib (u "Sure: ") (uq "'action': 'MOVE', 'x': 10, 'z': -5")
           (u " ok?") H1 H2).
Defined.

(** A reply without an opening brace, or without a closing one, gives the
    action [IDLE]. *)
Theorem no_span_is_idle (L : PyLib) (raw : str) :
  Forall (fun x => (x =? 123)%N = false) raw \/ Forall (fun x => (x =? 125)%N = false) raw ->
  parse_action L raw = IDLE.
Proof.
  intros [H | H]; unfold parse_action.
  - rewrite (@find_char_absent 123 raw H). reflexivity.
  - rewrite (@rfind_char_absent 125 raw H). change (-1 + 1)%Z with 0%Z.
    destruct (Z.leb_spec 0 (find_char 123 raw)); [|reflexivity].
    destruct (Z.ltb_spec (find_char 123 raw) 0); [lia | reflexivity].
Qed.

Lemma no_span_is_idle_witness :
  (Forall (fun x => (x =? 123)%N = false) (u "I will rest.")
   \/ Forall (fun x => (x =? 125)%N = false) (u "I will rest."))
  /\ parse_action Ref.lib (u "I will rest.") = IDLE.
Proof.
  assert (H : Forall (fun x => (x =? 123)%N = false) (u "I will rest.")
              \/ Forall (fun x => (x =? 125)%N = false) (u "I will rest."))
    by (left; vm_compute; repeat constructor).
  split; [exact H|].
  exact (@no_span_is_idle Ref.lib (u "I will rest.") H).
Defined.

(** ** The declared length *)

Section HeaderValues.

Variable L : PyLib.

Lemma strip_plain v : plain_value v -> Py.strip v = v.
Proof.
  intros ((c & t & -> & Hc) & (c' & t' & Hr & Hc') & _ & _). unfold Py.strip.
  cbn [Py.lstrip]. rewrite Hc. unfold Py.rstrip. rewrite Hr. cbn [Py.lstrip]. rewrite Hc'.
  rewrite <- Hr. apply rev_involutive.
Qed.

Lemma rstrip_plain x v : plain_value v -> Py.rstrip (x ++ v) = x ++ v.
Proof.
  intros (_ & (c' & t' & Hr & Hc') & _ & _). unfold Py.rstrip.
  rewrite rev_app_distr, Hr. cbn [app Py.lstrip]. rewrite Hc'.
  change (c' :: t' ++ rev x) with ((c' :: t') ++ rev x).
  rewrite <- Hr, <- rev_app_distr. apply rev_involutive.
Qed.

Lemma parse_header_with v :
  plain_value v ->
  parse_content_length (header_with v)
  = match Py.int_of_str v with
    | Some n => Ok n
    | None => Raise ValueError
    end.
Proof.
  intros Hv. pose proof Hv as (_ & _ & Hlf & Hcolon).
  unfold parse_content_length, header_with, Py.strip.
  rewrite PyFacts.prefix_text.
  change (Py.lstrip ([67; 111; 110; 116; 101; 110; 116; 45; 76; 101; 110; 103; 116; 104; 58; 32]%N
                     ++ v ++ CRLF ++ CRLF))
    with ([67; 111; 110; 116; 101; 110; 116; 45; 76; 101; 110; 103; 116; 104; 58; 32]%N
          ++ v ++ CRLF ++ CRLF).
  rewrite app_assoc, PyFacts.rstrip_crlf_crlf, rstrip_plain by assumption.
  rewrite PyFacts.split_none
    by (apply Forall_app; split; [repeat constructor | exact Hlf]).
  cbn [scan_header_lines].
  replace (Py.startswith (Py.lower _) (u "content-length:")) with true by reflexivity.
  change ([67; 111; 110; 116; 101; 110; 116; 45; 76; 101; 110; 103; 116; 104; 58; 32]%N ++ v)
    with ([67; 111; 110; 116; 101; 110; 116; 45; 76; 101; 110; 103; 116; 104]%N
          ++ 58%N :: 32%N :: v).
  rewrite PyFacts.split_one;
    [| repeat constructor | constructor; [reflexivity | exact Hcolon]].
  cbn [nth].
  change (Py.strip (32%N :: v)) with (Py.strip v).
  rewrite strip_plain by assumption.
  destruct (Py.int_of_str v); reflexivity.
Qed.

Lemma read_header_with v rest :
  plain_value v -> read_header (header_with v ++ rest) = Some (header_with v, rest).
Proof.
  intros (_ & (c' & t' & Hr & _) & Hlf & _).
  assert (Hc' : (c' =? Py.LF)%N = false).
  { rewrite Forall_forall in Hlf. apply Hlf. apply in_rev. rewrite Hr. now left. }
  assert (Hshape : header_with v ++ rest
                   = ((u "Content-Length: " ++ v) ++ [Py.CR]) ++ Py.LF :: ([Py.CR] ++ Py.LF :: rest)).
  { unfold header_with, CRLF. rewrite <- !app_assoc. reflexivity. }
  unfold read_header.
  remember (S (List.length (header_with v ++ rest))) as fuel eqn:Hfuel.
  assert (Hf : (2 <= fuel)%nat).
  { subst fuel. unfold header_with. rewrite !length_app. simpl. lia. }
  clear Hfuel. destruct fuel as [|[|f]]; try lia.
  rewrite Hshape. cbn [read_header_loop].
  rewrite PyFacts.readline_app.
  2:{ rewrite !Forall_app. repeat split;
        [rewrite PyFacts.prefix_text; repeat constructor | exact Hlf | repeat constructor]. }
  change ([] ++ ?x) with x.
  assert (Hopen : Py.endswith (((u "Content-Length: " ++ v) ++ [Py.CR]) ++ [Py.LF]) (CRLF ++ CRLF)
                  || Py.endswith (((u "Content-Length: " ++ v) ++ [Py.CR]) ++ [Py.LF])
                       [Py.LF; Py.LF] = false).
  { unfold Py.endswith. rewrite !rev_app_distr, Hr. unfold Py.LF in Hc'. simpl.
    rewrite Hc'. reflexivity. }
  destruct (((u "Content-Length: " ++ v) ++ [Py.CR]) ++ [Py.LF]) as [|x l] eqn:El.
  { apply (f_equal (@List.length N)) in El. rewrite !length_app in El. simpl in El. lia. }
  cbn zeta. rewrite Hopen, <- El.
  rewrite (@PyFacts.readline_app [Py.CR] rest) by (repeat constructor).
  cbn [app].
  replace (Py.endswith _ (CRLF ++ CRLF)) with true
    by (unfold Py.endswith, CRLF, Py.CR, Py.LF; rewrite !rev_app_distr; simpl; reflexivity).
  cbn [orb]. f_equal. f_equal.
  unfold header_with, CRLF, Py.CR, Py.LF. rewrite <- !app_assoc. reflexivity.
Qed.

End HeaderValues.







(** A declared length of zero is treated like a missing one: the turn of the
    loop consumes the header block and nothing else, and answers nothing. *)
Theorem zero_length_skipped (L : PyLib) (w : world) (v rest : str) :
  plain_value v -> Py.int_of_str v = Some 0%Z ->
  stdin w = header_with v ++ rest ->
  iteration L w = Continue (with_stdin w rest).
Proof.
  intros Hv Hi Hin. unfold iteration, receive.
  rewrite Hin, (read_header_with rest Hv), (parse_header_with Hv), Hi. reflexivity.
Qed.

Lemma zero_length_skipped_witness :
  plain_value (u "0")
  /\ Py.int_of_str (u "0") = Some 0%Z
  /\ iteration Ref.lib (Sample.start (header_with (u "0") ++ wire_frame Sample.ping2_body))
     = Continue (with_stdin (Sample.start (header_with (u "0")
                                           ++ wire_frame Sample.ping2_body))
                   (wire_frame Sample.ping2_body)).
Proof.
  assert (H1 : plain_value (u "0")).
  { repeat split.
    - exists 48%N, []. split; reflexivity.
    - exists 48%N, []. split; reflexivity.
    - vm_compute; repeat constructor.
    - vm_compute; repeat constructor. }
  assert (H2 : Py.int_of_str (u "0") = Some 0%Z) by reflexivity.
  split; [exact H1 | split; [exact H2 |]].
  exact (@zero_length_skipped Ref.lib
           (Sample.start (header_with (u "0") ++ wire_frame Sample.ping2_body))
           (u "0") (wire_frame Sample.ping2_body) H1 H2 eq_refl).
Defined.

(** ** The mailbox from end to end *)

Section Mailbox.

Variable L : PyLib.

Lemma send_one_queued m now fs q :
  m <> [] -> queue_is (PENDING_MESSAGES_FILE fs) q ->
  PENDING_MESSAGES_FILE
    (snd (handle_tool_call L (JStr (u "oracle_send_message"))
            (JObj [(u "message", JStr m)]) now fs))
  = Doc (JArr (q ++ [pending_entry (JStr m) now])).
Proof.
  intros Hm Hq.
  change (handle_tool_call L (JStr (u "oracle_send_message"))
            (JObj [(u "message", JStr m)]) now fs)
    with (send_message L (JObj [(u "message", JStr m)]) now fs).
  unfold send_message.
  change (py_get (JObj [(u "message", JStr m)]) (u "message") (JStr [])) with (Ok (JStr m)).
  destruct m as [|c m]; [congruence|]. cbn [truthy negb].
  destruct Hq as [[Hf ->] | [[Hf ->] | Hf]]; rewrite Hf; reflexivity.
Qed.

Lemma send_messages_queued (msgs : list (str * float)) : forall fs q,
  Forall (fun mt => fst mt <> []) msgs ->
  queue_is (PENDING_MESSAGES_FILE fs) q ->
  queue_is (PENDING_MESSAGES_FILE (send_messages L msgs fs))
           (q ++ map (fun mt => pending_entry (JStr (fst mt)) (snd mt)) msgs).
Proof.
  induction msgs as [|[m t] msgs IH]; intros fs q Hall Hq.
  - cbn. now rewrite app_nil_r.
  - inversion Hall as [|? ? Hm Hrest]; subst. cbn [fst] in Hm.
    cbn [send_messages fold_left map fst snd].
    change (fold_left _ msgs ?x) with (send_messages L msgs x).
    replace (q ++ pending_entry (JStr m) t :: map _ msgs)
      with ((q ++ [pending_entry (JStr m) t])
            ++ map (fun mt => pending_entry (JStr (fst mt)) (snd mt)) msgs)
      by (rewrite <- app_assoc; reflexivity).
    apply IH; [exact Hrest|].
    right. right. now apply send_one_queued.
Qed.

Lemma relay_entries chat chat_id deliver (msgs : list (str * float)) :
  Py.int_of_str chat = Some chat_id ->
  (forall c t, deliver c t = true) ->
  Forall (fun mt => fst mt <> []) msgs ->
  relay L chat deliver (map (fun mt => pending_entry (JStr (fst mt)) (snd mt)) msgs)
  = (Ok tt, map (fun mt => (chat_id, relay_text L (JStr (fst mt)))) msgs).
Proof.
  intros Hc Hd. induction 1 as [|[m t] msgs Hm _ IH]; [reflexivity|].
  cbn [map fst snd relay].
  change (py_get (pending_entry (JStr m) t) (u "message") (JStr [])) with (Ok (JStr m)).
  cbn [fst] in Hm. destruct m as [|c m]; [congruence|]. cbn [truthy].
  rewrite Hc, Hd, IH. reflexivity.
Qed.

End Mailbox.

(** The mailbox is first in, first out: after any number of calls of
    [oracle_send_message] with non-empty texts on a missing queue file, one
    polling cycle that delivers everything relays exactly those texts, in the
    order of the calls, and leaves the empty list in the file. *)
Theorem mailbox_first_in_first_out (L : PyLib) (msgs : list (str * float)) (fs : files)
    (chat : str) (chat_id : Z) (deliver : Z -> str -> bool) :
  PENDING_MESSAGES_FILE fs = Absent ->
  msgs <> [] ->
  Forall (fun mt => fst mt <> []) msgs ->
  chat <> [] -> Py.int_of_str chat = Some chat_id ->
  (forall c t, deliver c t = true) ->
  check_pending_messages L chat deliver (PENDING_MESSAGES_FILE (send_messages L msgs fs))
  = (Doc (JArr []), map (fun mt => (chat_id, relay_text L (JStr (fst mt)))) msgs).
Proof.
  intros Hf Hne Hall Hchat Hid Hdel.
  pose proof (@send_messages_queued L msgs fs [] Hall (or_introl (conj Hf eq_refl))) as Hq.
  cbn [app] in Hq.
  destruct Hq as [[_ Hq] | [[_ Hq] | Hq]];
    try (destruct msgs; [congruence | discriminate Hq]).
  rewrite Hq. unfold check_pending_messages.
  destruct chat as [|c chat']; [congruence|].
  assert (Ht : truthy (JArr (map (fun mt => pending_entry (JStr (fst mt)) (snd mt)) msgs))
               = true) by (destruct msgs; [congruence | reflexivity]).
  rewrite Ht. cbn [negb].
  rewrite (@relay_entries L (c :: chat') chat_id deliver msgs Hid Hdel Hall). reflexivity.
Qed.

Lemma mailbox_first_in_first_out_witness :
  let msgs := [(u "one", 1000%float); (u "two", 1001%float)] in
  PENDING_MESSAGES_FILE Sample.no_files = Absent
  /\ msgs <> []
  /\ Forall (fun mt => fst mt <> []) msgs
  /\ u "42" <> []
  /\ Py.int_of_str (u "42") = Some 42%Z
  /\ check_pending_messages Ref.lib (u "42") (fun _ _ => true)
       (PENDING_MESSAGES_FILE (send_messages Ref.lib msgs Sample.no_files))
     = (Doc (JArr []),
        map (fun mt => (42%Z, relay_text Ref.lib (JStr (fst mt)))) msgs).
Proof.
  intros msgs.
  assert (H1 : PENDING_MESSAGES_FILE Sample.no_files = Absent) by reflexivity.
  assert (H2 : msgs <> []) by discriminate.
  assert (H3 : Forall (fun mt => fst mt <> []) msgs)
    by (repeat constructor; vm_compute; discriminate).
  assert (H4 : u "42" <> []) by (vm_compute; discriminate).
  assert (H5 : Py.int_of_str (u "42") = Some 42%Z) by reflexivity.
  split; [exact H1 | split; [exact H2 | split; [exact H3 | split; [exact H4 |
    split; [exact H5 |]]]]].
  exact (@mailbox_first_in_first_out Ref.lib msgs Sample.no_files (u "42") 42
           (fun _ _ => true) H1 H2 H3 H4 H5 (fun _ _ => eq_refl)).
Defined.
